(** * Process-control metrics of the tablet dashboard

    A shallow embedding of the three computations of [streamlit_app.py]:
    [calculate_control_chart_metrics], [calculate_process_capability] and the
    x-axis selection at the head of [create_control_chart], together with the
    [data.empty] guard of the script body that calls them.

    Numbers.  The script computes on IEEE-754 doubles (pandas returns
    [numpy.float64], [float('inf')] is a Python float).  The code is written
    once over an interface [PyFloat] of the operations it uses, and the
    interface has two instances:

    - [binary64], the kernel's primitive floats: the functions can be run on
      concrete inputs exactly as Python runs them;
    - [xreal], the values of a double without its rounding: NaN, the two
      infinities and the finite real numbers, with the IEEE rules for the
      special values and exact arithmetic on the finite ones.  Rounding,
      overflow and signed zeros are not modelled there.  The general
      statements about arithmetic are proved over [xreal].

    pandas.  [Series.mean()] and [Series.std()] are library calls; they are
    modelled after [pandas.core.nanops.nanmean] and [nanvar]/[nanstd] with
    the defaults the script relies on ([skipna=True], [ddof=1]): NaN cells are
    dropped, the mean of no value is NaN, and the variance of [count <= ddof]
    values is NaN.

    The second part of the file covers the rest of the script: the slider of
    the specification limits, the loaders [get_manufacturing_data] and
    [get_unique_values] on the frame that [pd.read_csv] returns, and the
    titles made from a metric name. *)

From Stdlib Require Import Floats.
From Stdlib Require Import Reals Lra Lia ZArith QArith List String Bool.
From Stdlib Require Import Ascii Permutation Sorted.
From Stdlib Require Uint63.
Import ListNotations.

(** ** The float interface *)

Class PyFloat (F : Type) : Type := {
  fadd : F -> F -> F;          (* x + y *)
  fsub : F -> F -> F;          (* x - y *)
  fmul : F -> F -> F;          (* x * y *)
  fdiv : F -> F -> F;          (* x / y on numpy.float64: no exception *)
  fsqrt : F -> F;              (* np.sqrt *)
  feqb : F -> F -> bool;       (* x == y *)
  fltb : F -> F -> bool;       (* x < y *)
  fleb : F -> F -> bool;       (* x <= y *)
  of_nat : nat -> F;           (* an int used as a float *)
  inf : F;                     (* float('inf') *)
  nan : F;                     (* np.nan *)
  isna : F -> bool             (* pd.isna *)
}.

(** *** Instance 1: IEEE-754 binary64 *)

Definition binary64 : Type := PrimFloat.float.

Definition b64_of_nat (n : nat) : binary64 :=
  PrimFloat.of_uint63 (Uint63.of_Z (Z.of_nat n)).

#[export] Instance binary64_float : PyFloat binary64 := {|
  fadd := PrimFloat.add;
  fsub := PrimFloat.sub;
  fmul := PrimFloat.mul;
  fdiv := PrimFloat.div;
  fsqrt := PrimFloat.sqrt;
  feqb := PrimFloat.eqb;
  fltb := PrimFloat.ltb;
  fleb := PrimFloat.leb;
  of_nat := b64_of_nat;
  inf := PrimFloat.infinity;
  nan := PrimFloat.nan;
  isna := PrimFloat.is_nan
|}.

(** *** Instance 2: doubles without rounding *)

Inductive xreal : Type :=
  | XNaN
  | XInf (neg : bool)
  | XFin (r : R).

Definition Reqb (a b : R) : bool := if Req_dec_T a b then true else false.
Definition Rltb (a b : R) : bool := if Rlt_dec a b then true else false.
Definition Rleb (a b : R) : bool := if Rle_dec a b then true else false.

Definition xneg (x : xreal) : xreal :=
  match x with
  | XNaN => XNaN
  | XInf s => XInf (negb s)
  | XFin r => XFin (- r)
  end.

Definition xadd (x y : xreal) : xreal :=
  match x, y with
  | XNaN, _ | _, XNaN => XNaN
  | XInf s, XInf t => if Bool.eqb s t then XInf s else XNaN
  | XInf s, XFin _ => XInf s
  | XFin _, XInf t => XInf t
  | XFin a, XFin b => XFin (a + b)
  end.

Definition xsub (x y : xreal) : xreal := xadd x (xneg y).

Definition xmul (x y : xreal) : xreal :=
  match x, y with
  | XNaN, _ | _, XNaN => XNaN
  | XInf s, XInf t => XInf (xorb s t)
  | XInf s, XFin b => if Reqb b 0 then XNaN else XInf (xorb s (Rltb b 0))
  | XFin a, XInf t => if Reqb a 0 then XNaN else XInf (xorb (Rltb a 0) t)
  | XFin a, XFin b => XFin (a * b)
  end.

(** Division by a finite zero follows numpy ([x / 0.0] is an infinity of the
    sign of [x], [0.0 / 0.0] is NaN); the calculators guard it with
    [std != 0]. *)
Definition xdiv (x y : xreal) : xreal :=
  match x, y with
  | XNaN, _ | _, XNaN => XNaN
  | XInf _, XInf _ => XNaN
  | XInf s, XFin b => XInf (xorb s (Rltb b 0))
  | XFin _, XInf _ => XFin 0
  | XFin a, XFin b =>
      if Reqb b 0 then (if Reqb a 0 then XNaN else XInf (Rltb a 0))
      else XFin (a / b)
  end.

Definition xsqrt (x : xreal) : xreal :=
  match x with
  | XNaN => XNaN
  | XInf s => if s then XNaN else XInf false
  | XFin r => if Rltb r 0 then XNaN else XFin (sqrt r)
  end.

Definition xeqb (x y : xreal) : bool :=
  match x, y with
  | XInf s, XInf t => Bool.eqb s t
  | XFin a, XFin b => Reqb a b
  | _, _ => false
  end.

Definition xltb (x y : xreal) : bool :=
  match x, y with
  | XNaN, _ | _, XNaN => false
  | XInf s, XInf t => s && negb t
  | XInf s, XFin _ => s
  | XFin _, XInf t => negb t
  | XFin a, XFin b => Rltb a b
  end.

Definition xleb (x y : xreal) : bool :=
  match x, y with
  | XNaN, _ | _, XNaN => false
  | XInf s, XInf t => s || negb t
  | XInf s, XFin _ => s
  | XFin _, XInf t => negb t
  | XFin a, XFin b => Rleb a b
  end.

Definition xisna (x : xreal) : bool :=
  match x with XNaN => true | _ => false end.

#[export] Instance xreal_float : PyFloat xreal := {|
  fadd := xadd;
  fsub := xsub;
  fmul := xmul;
  fdiv := xdiv;
  fsqrt := xsqrt;
  feqb := xeqb;
  fltb := xltb;
  fleb := xleb;
  of_nat := fun n => XFin (INR n);
  inf := XInf false;
  nan := XNaN;
  isna := xisna
|}.

(** ** Exceptions *)

Inductive exn : Type :=
  | KeyError (key : string).

Inductive result (A : Type) : Type :=
  | Ok (a : A)
  | Raise (e : exn).

Arguments Ok {A} a.
Arguments Raise {A} e.

Definition bind {A B : Type} (m : result A) (k : A -> result B) : result B :=
  match m with
  | Ok a => k a
  | Raise e => Raise e
  end.

Notation "x <- m ;; k" := (bind m (fun x => k))
  (at level 61, m at next level, right associativity).

(** ** The script *)

Section Script.

Context {F : Type} `{PyFloat F}.

(** A data frame: the [timestamp] column (nanoseconds since the epoch, as
    [datetime64[ns]] stores them) and the numeric columns by name.  A
    missing measurement is a NaN cell. *)
Record DataFrame : Type := {
  timestamp : list Z;
  columns : list (string * list F)
}.

(** [data[metric]] *)
Fixpoint lookup (cols : list (string * list F)) (metric : string)
  : option (list F) :=
  match cols with
  | [] => None
  | (name, col) :: rest =>
      if String.eqb name metric then Some col else lookup rest metric
  end.

Definition getitem (data : DataFrame) (metric : string) : result (list F) :=
  match lookup (columns data) metric with
  | Some col => Ok col
  | None => Raise (KeyError metric)
  end.

(** [data.empty]: the frame has no row (a frame read with no column has
    none either). *)
Definition empty (data : DataFrame) : bool :=
  match timestamp data with
  | [] => true
  | _ :: _ => false
  end.

(** *** pandas reductions *)

Definition dropna (s : list F) : list F :=
  filter (fun x => negb (isna x)) s.

Definition fsum (l : list F) : F := fold_left fadd l (of_nat 0).

(** [Series.mean()] *)
Definition series_mean (s : list F) : F :=
  let values := dropna s in
  let count := List.length values in
  if (0 <? count)%nat then fdiv (fsum values) (of_nat count) else nan.

(** [Series.var()], [ddof = 1].  With [count <= ddof] pandas replaces both
    the count and the divisor by NaN, and the result is NaN. *)
Definition series_var (s : list F) : F :=
  let ddof := 1%nat in
  let values := dropna s in
  let count := List.length values in
  if (count <=? ddof)%nat then nan
  else
    let d := fsub (of_nat count) (of_nat ddof) in
    let avg := fdiv (fsum values) (of_nat count) in
    let sqr := map (fun x => let e := fsub avg x in fmul e e) values in
    fdiv (fsum sqr) d.

(** [Series.std()] *)
Definition series_std (s : list F) : F := fsqrt (series_var s).

(** Python's [min(a, b)]: the first argument unless the second is smaller. *)
Definition pymin (a b : F) : F := if fltb b a then b else a.

(** *** [calculate_control_chart_metrics] *)
Definition calculate_control_chart_metrics
  (data : DataFrame) (metric : string) : result (F * F * F) :=
  col <- getitem data metric ;;
  let mean := series_mean col in
  let std := series_std col in
  let ucl := fadd mean (fmul (of_nat 3) std) in
  let lcl := fsub mean (fmul (of_nat 3) std) in
  Ok (mean, ucl, lcl).

(** *** [calculate_process_capability] *)
Definition capability_cpu (mean std usl : F) : F :=
  if negb (feqb std (of_nat 0))
  then fdiv (fsub usl mean) (fmul (of_nat 3) std) else inf.

Definition capability_cpl (mean std lsl : F) : F :=
  if negb (feqb std (of_nat 0))
  then fdiv (fsub mean lsl) (fmul (of_nat 3) std) else inf.

Definition calculate_process_capability
  (data : DataFrame) (metric : string) (lsl usl : F) : result (F * F) :=
  col <- getitem data metric ;;
  let mean := series_mean col in
  let std := series_std col in
  let cpu := capability_cpu mean std usl in
  let cpl := capability_cpl mean std lsl in
  let cpk := pymin cpu cpl in
  let ppk := cpk in
  Ok (cpk, ppk).

End Script.

Arguments DataFrame F : clear implicits.

(** *** The x axis of [create_control_chart] *)

Record Axis : Type := {
  x_format : string;
  x_title : string;
  tick_count : Z
}.

(** [Series.max()] and [Series.min()] of the timestamps; [None] is [NaT],
    the extremum of no timestamp. *)
Definition ts_max (ts : list Z) : option Z :=
  match ts with
  | [] => None
  | t :: rest => Some (fold_left Z.max rest t)
  end.

Definition ts_min (ts : list Z) : option Z :=
  match ts with
  | [] => None
  | t :: rest => Some (fold_left Z.min rest t)
  end.

(** [(timestamps.max() - timestamps.min()).total_seconds()]: the difference
    in nanoseconds, as seconds.  [None] is the NaN that [NaT] gives. *)
Definition total_seconds (ns : Z) : Q := ns # 1000000000.

Definition time_range_of (ts : list Z) : option Q :=
  match ts_max ts, ts_min ts with
  | Some hi, Some lo => Some (total_seconds (hi - lo))
  | _, _ => None
  end.

(** [time_range <= bound]; a NaN compares false. *)
Definition range_le (time_range : option Q) (bound : Z) : bool :=
  match time_range with
  | Some q => Qle_bool q (inject_Z bound)
  | None => false
  end.

Definition axis_of_range (time_range : option Q) : Axis :=
  if range_le time_range (24 * 60 * 60) then
    {| x_format := "%H:%M"; x_title := "Time"; tick_count := 5 |}
  else if range_le time_range (30 * 24 * 60 * 60) then
    {| x_format := "%b %d"; x_title := "Date"; tick_count := 7 |}
  else if range_le time_range (365 * 24 * 60 * 60) then
    {| x_format := "%b %Y"; x_title := "Month"; tick_count := 6 |}
  else
    {| x_format := "%Y"; x_title := "Year"; tick_count := 5 |}.

(** The axis that [create_control_chart] gives the chart of [data]. *)
Definition create_control_chart_axis {F : Type} (data : DataFrame F) : Axis :=
  axis_of_range (time_range_of (timestamp data)).

(** *** The script body

    What the page shows for the frame [data] that the filters returned, the
    selected [metric] and the limits [(lsl, usl)] the user set on the
    slider. *)
Inductive page (F : Type) : Type :=
  | ErrorBox (message : string)
  | Tabs (mean ucl lcl lsl usl cpk ppk : F) (axis : Axis).

Arguments ErrorBox {F} message.
Arguments Tabs {F} mean ucl lcl lsl usl cpk ppk axis.

Definition no_data_message : string :=
  "No data available for the selected date range and filters.".

Definition script_body {F : Type} `{PyFloat F}
  (data : DataFrame F) (metric : string) (lsl usl : F) : result (page F) :=
  if empty data then Ok (ErrorBox no_data_message)
  else
    limits <- calculate_control_chart_metrics data metric ;;
    let '(mean, ucl, lcl) := limits in
    indices <- calculate_process_capability data metric lsl usl ;;
    let '(cpk, ppk) := indices in
    Ok (Tabs mean ucl lcl lsl usl cpk ppk (create_control_chart_axis data)).

(** ** Running the calculators on one series

    A frame with the single metric column [tbl_speed]. *)

Module Run.

Definition frame {F : Type} (ts : list Z) (values : list F) : DataFrame F :=
  {| timestamp := ts; columns := [("tbl_speed"%string, values)] |}.

Definition limits_of {F : Type} `{PyFloat F} (values : list F)
  : result (F * F * F) :=
  calculate_control_chart_metrics (frame [] values) "tbl_speed".

Definition capability_of {F : Type} `{PyFloat F} (values : list F)
  (lsl usl : F) : result (F * F) :=
  calculate_process_capability (frame [] values) "tbl_speed" lsl usl.

End Run.

(** ** What the proofs use of a NaN

    A NaN operand makes the result of an arithmetic operation NaN, and a NaN
    is equal to nothing.  Both instances satisfy these laws. *)

Class NaNLaws (F : Type) `{PyFloat F} : Prop := {
  fadd_nan_r : forall x : F, fadd x nan = nan;
  fsub_nan_r : forall x : F, fsub x nan = nan;
  fmul_nan_r : forall x : F, fmul x nan = nan;
  fdiv_nan_r : forall x : F, fdiv x nan = nan;
  fsqrt_nan : fsqrt nan = nan :> F;
  feqb_nan_l : forall y : F, feqb nan y = false
}.

(** ** The spec's statistics

    The control limits as the specification words them, in the arithmetic of
    the values: the arithmetic mean is the total over the number of values,
    the sample standard deviation is the square root of the total of the
    squared deviations from the mean over [n - 1]. *)

Section SpecStatistics.

Context {F : Type} `{PyFloat F}.

Definition total (xs : list F) : F := fold_right fadd (of_nat 0) xs.

Definition arithmetic_mean (xs : list F) : F :=
  fdiv (total xs) (of_nat (List.length xs)).

Definition squared_deviation (m x : F) : F := fmul (fsub x m) (fsub x m).

Definition sample_std (xs : list F) : F :=
  fsqrt (fdiv (total (map (squared_deviation (arithmetic_mean xs)) xs))
              (of_nat (List.length xs - 1))).

End SpecStatistics.

(** The same over the real numbers. *)

Fixpoint Rtotal (rs : list R) : R :=
  match rs with
  | [] => 0
  | r :: rest => r + Rtotal rest
  end%R.

Definition Rmean (rs : list R) : R := (Rtotal rs / INR (List.length rs))%R.

Definition Rsample_std (rs : list R) : R :=
  sqrt (Rtotal (map (fun r => (r - Rmean rs) * (r - Rmean rs)) rs)
        / (INR (List.length rs) - 1))%R.

(** A series in the sense of the spec's data model: every cell is a finite
    number or absent. *)
Definition finite_cell (x : xreal) : Prop :=
  match x with XInf _ => False | _ => True end.

Definition finite_series (col : list xreal) : Prop := Forall finite_cell col.

(** The present values of a series of the data model. *)
Fixpoint present (col : list xreal) : list R :=
  match col with
  | [] => []
  | XFin r :: rest => r :: present rest
  | _ :: rest => present rest
  end.

(** ** The rest of the script

    The slider of the specification limits in the script body, the two
    loaders [get_manufacturing_data] and [get_unique_values], and the titles
    that [create_control_chart] and the metrics tab print. *)

(** The float literal [0.1]: the double nearest to one tenth, and one tenth
    itself where nothing is rounded. *)
Class PyLiterals (F : Type) : Type := {
  lit_0_1 : F
}.

#[export] Instance binary64_literals : PyLiterals binary64 := {|
  lit_0_1 := 0x1.999999999999ap-4%float
|}.


Section Slider.

Context {F : Type} `{PyFloat F} `{PyLiterals F}.

(** Python's [max(a, b)]: the first argument unless the second is greater. *)
Definition pymax (a b : F) : F := if fltb a b then b else a.

(** [Series.min()] and [Series.max()]: the extremum of the present values,
    NaN when there is none. *)
Definition series_min (s : list F) : F :=
  match dropna s with
  | [] => nan
  | x :: rest => fold_left (fun acc y => if fltb y acc then y else acc) rest x
  end.

Definition series_max (s : list F) : F :=
  match dropna s with
  | [] => nan
  | x :: rest => fold_left (fun acc y => if fltb acc y then y else acc) rest x
  end.

(** The arguments of [st.slider]: the range and the initial pair. *)
Record Slider : Type := {
  min_value : F;
  max_value : F;
  value : F * F
}.

(** Lines 242 to 260 of the script: the slider for the metric, given the
    mean that [calculate_control_chart_metrics] returned. *)
Definition slider_arguments
  (data : DataFrame F) (metric : string) (mean : F) : result Slider :=
  col <- getitem data metric ;;
  let metric_min := series_min col in
  let metric_max := series_max col in
  let padding := fmul (fsub metric_max metric_min) lit_0_1 in
  let slider_min := fsub metric_min padding in
  let slider_max := fadd metric_max padding in
  let default_lsl :=
    pymax slider_min (fsub mean (fmul (of_nat 2) (series_std col))) in
  let default_usl :=
    pymin slider_max (fadd mean (fmul (of_nat 2) (series_std col))) in
  Ok {| min_value := slider_min; max_value := slider_max;
        value := (default_lsl, default_usl) |}.


End Slider.

Arguments Slider F : clear implicits.

(** *** Strings: [str.lower], [str.replace], [str.capitalize]

    On ASCII text, which the column names and the metric names are. *)

Definition is_upper (c : ascii) : bool :=
  (65 <=? nat_of_ascii c)%nat && (nat_of_ascii c <=? 90)%nat.

Definition is_lower (c : ascii) : bool :=
  (97 <=? nat_of_ascii c)%nat && (nat_of_ascii c <=? 122)%nat.

Definition lower_char (c : ascii) : ascii :=
  if is_upper c then ascii_of_nat (nat_of_ascii c + 32) else c.

Definition upper_char (c : ascii) : ascii :=
  if is_lower c then ascii_of_nat (nat_of_ascii c - 32) else c.

Fixpoint lower (s : string) : string :=
  match s with
  | EmptyString => EmptyString
  | String c rest => String (lower_char c) (lower rest)
  end.

(** [s.replace(old, new)] for one-character [old] and [new]. *)
Fixpoint replace (old new : ascii) (s : string) : string :=
  match s with
  | EmptyString => EmptyString
  | String c rest =>
      String (if Ascii.eqb c old then new else c) (replace old new rest)
  end.

Definition capitalize (s : string) : string :=
  match s with
  | EmptyString => EmptyString
  | String c rest => String (upper_char c) (lower rest)
  end.

(** [metric.replace('_', ' ').capitalize()] *)
Definition metric_title (metric : string) : string :=
  capitalize (replace "_"%char " "%char metric).

(** The title of the chart. *)
Definition chart_title (metric : string) : string :=
  ("Control Chart for " ++ metric_title metric)%string.

(** *** The loaders *)

Section Loaders.

Context {F : Type} `{PyFloat F}.

(** [pd.DataFrame()] *)
Definition empty_frame : DataFrame F := {| timestamp := []; columns := [] |}.

(** [data.columns = data.columns.str.lower()] *)
Definition lower_columns (data : DataFrame F) : DataFrame F :=
  {| timestamp := timestamp data;
     columns := map (fun nc => (lower (fst nc), snd nc)) (columns data) |}.

(** [col[mask]]: the cells of the rows where the mask is true. *)
Fixpoint select {A : Type} (mask : list bool) (col : list A) : list A :=
  match mask, col with
  | b :: mask', x :: col' =>
      if b then x :: select mask' col' else select mask' col'
  | _, _ => []
  end.

(** [data[mask]] *)
Definition take_rows (mask : list bool) (data : DataFrame F) : DataFrame F :=
  {| timestamp := select mask (timestamp data);
     columns := map (fun nc => (fst nc, select mask (snd nc))) (columns data) |}.

(** [(data['timestamp'] >= start_date) & (data['timestamp'] <= end_date)];
    [start_date] and [end_date] are the instants that the two date strings
    denote, in nanoseconds like the timestamps. *)
Definition in_range (start_date end_date t : Z) : bool :=
  (start_date <=? t)%Z && (t <=? end_date)%Z.

(** [data[data[name] == wanted]] *)
Definition keep_equal (name : string) (wanted : F) (data : DataFrame F)
  : result (DataFrame F) :=
  col <- getitem data name ;;
  Ok (take_rows (map (fun x => feqb x wanted) col) data).

(** The body of the [try] of [get_manufacturing_data], on the frame that
    [pd.read_csv] returned with its timestamps parsed. *)
Definition filter_manufacturing_data
  (data : DataFrame F) (start_date end_date : Z) (campaign batch : option F)
  : result (DataFrame F) :=
  let data := lower_columns data in
  let data :=
    take_rows (map (in_range start_date end_date) (timestamp data)) data in
  data <- match campaign with
          | Some c => keep_equal "campaign" c data
          | None => Ok data
          end ;;
  match batch with
  | Some b => keep_equal "batch" b data
  | None => Ok data
  end.

(** [get_manufacturing_data]; [file] is what [pd.read_csv("1.csv")] gives,
    [None] when the file is not found.  Every exception ends in the empty
    frame. *)
Definition get_manufacturing_data
  (file : option (DataFrame F)) (start_date end_date : Z)
  (campaign batch : option F) : DataFrame F :=
  match file with
  | None => empty_frame
  | Some data =>
      match filter_manufacturing_data data start_date end_date campaign batch
      with
      | Ok filtered => filtered
      | Raise _ => empty_frame
      end
  end.

(** [Series.unique()]: the values in order of first appearance; two missing
    cells count as the same value. *)
Definition same_value (x y : F) : bool := feqb x y || (isna x && isna y).

Definition unique (col : list F) : list F :=
  fold_left
    (fun seen x => if existsb (same_value x) seen then seen else seen ++ [x])
    col [].

(** [sorted(values)]: a stable sort by [<]. *)
Fixpoint insert_sorted (x : F) (l : list F) : list F :=
  match l with
  | [] => [x]
  | y :: rest => if fltb x y then x :: y :: rest else y :: insert_sorted x rest
  end.

Definition sorted (l : list F) : list F :=
  fold_left (fun acc x => insert_sorted x acc) l [].

(** [get_unique_values] *)
Definition get_unique_values
  (file : option (DataFrame F)) (column : string) : list F :=
  match file with
  | None => []
  | Some data =>
      let data := lower_columns data in
      match lookup (columns data) (lower column) with
      | None => []
      | Some col => sorted (unique col)
      end
  end.

End Loaders.

(** A frame is well formed when every column has one cell per row. *)
Definition well_formed {F : Type} (data : DataFrame F) : Prop :=
  Forall (fun nc => List.length (snd nc) = List.length (timestamp data))
         (columns data).


(** * Properties *)

(** ** The NaN laws hold in both instances *)

Module Binary64Facts.

Import PrimFloat SpecFloat FloatOps FloatAxioms.

Ltac by_spec spec op :=
  intros x; apply Prim2SF_inj; rewrite spec;
  change (Prim2SF nan) with S754_nan;
  unfold op; destruct (Prim2SF x); reflexivity.

Lemma add_nan_r : forall x, (x + nan)%float = nan.
Proof. by_spec add_spec SF64add. Qed.

Lemma sub_nan_r : forall x, (x - nan)%float = nan.
Proof. by_spec sub_spec SF64sub. Qed.

Lemma mul_nan_r : forall x, (x * nan)%float = nan.
Proof. by_spec mul_spec SF64mul. Qed.

Lemma div_nan_r : forall x, (x / nan)%float = nan.
Proof. by_spec div_spec SF64div. Qed.

Lemma eqb_nan_l : forall y, (nan =? y)%float = false.
Proof.
  intros y. rewrite eqb_spec. change (Prim2SF nan) with S754_nan. reflexivity.
Qed.

End Binary64Facts.

#[export] Instance binary64_nan_laws : NaNLaws binary64.
Proof.
  split; cbn.
  - apply Binary64Facts.add_nan_r.
  - apply Binary64Facts.sub_nan_r.
  - apply Binary64Facts.mul_nan_r.
  - apply Binary64Facts.div_nan_r.
  - reflexivity.
  - apply Binary64Facts.eqb_nan_l.
Qed.

#[export] Instance xreal_nan_laws : NaNLaws xreal.
Proof.
  split; cbn; try reflexivity; intros x; destruct x; reflexivity.
Qed.

(** ** Facts that hold for every float instance *)

Section AnyFloat.

Context {F : Type} `{NaNLaws F}.

Lemma pymin_same (a : F) : pymin a a = a.
Proof. unfold pymin. destruct (fltb a a); reflexivity. Qed.

(** No present value: the mean is NaN. *)
Lemma series_mean_none (col : list F) :
  dropna col = [] -> series_mean col = nan.
Proof. unfold series_mean. intros ->. reflexivity. Qed.

(** At most one present value: the standard deviation is NaN. *)
Lemma series_std_few (col : list F) :
  (List.length (dropna col) <= 1)%nat -> series_std col = nan.
Proof.
  intros Hn. unfold series_std, series_var.
  apply Nat.leb_le in Hn. rewrite Hn. apply fsqrt_nan.
Qed.

Lemma nan_limits (col : list F) (mean : F) :
  series_std col = nan ->
  fadd mean (fmul (of_nat 3) (series_std col)) = nan /\
  fsub mean (fmul (of_nat 3) (series_std col)) = nan.
Proof.
  intros ->. rewrite fmul_nan_r. split; [apply fadd_nan_r | apply fsub_nan_r].
Qed.

Lemma nan_capability (mean bound lower : F) :
  capability_cpu mean nan bound = nan /\ capability_cpl mean nan lower = nan.
Proof.
  unfold capability_cpu, capability_cpl.
  rewrite feqb_nan_l, fmul_nan_r, !fdiv_nan_r. split; reflexivity.
Qed.

End AnyFloat.

(** ** The calculators on a series without usable values *)

(** C4, as the code has it.  A calculator raises nothing on a series with no
    present value: the control limits are (NaN, NaN, NaN) and the capability
    indices (NaN, NaN).  The "no data" state is the caller's: the script body
    tests [data.empty] first and shows the message without calling a
    calculator. *)
Theorem no_present_value_gives_nan
  {F : Type} `{NaNLaws F} (data : DataFrame F) (metric : string) :
  (forall col : list F,
     getitem data metric = Ok col -> dropna col = [] ->
     calculate_control_chart_metrics data metric = Ok (nan, nan, nan) /\
     forall lsl usl : F,
       calculate_process_capability data metric lsl usl = Ok (nan, nan)) /\
  (empty data = true ->
   forall lsl usl : F,
     script_body data metric lsl usl = Ok (ErrorBox no_data_message)).
Proof.
  split.
  - intros col Hcol Hnone.
    assert (Hstd : series_std col = nan)
      by (apply series_std_few; rewrite Hnone; cbn; lia).
    split.
    + unfold calculate_control_chart_metrics. rewrite Hcol; cbn [bind].
      destruct (nan_limits col (series_mean col) Hstd) as [-> ->].
      rewrite (series_mean_none col Hnone). reflexivity.
    + intros lsl usl.
      unfold calculate_process_capability. rewrite Hcol; cbn [bind].
      rewrite Hstd.
      destruct (nan_capability (series_mean col) usl lsl) as [-> _].
      destruct (nan_capability (series_mean col) usl lsl) as [_ ->].
      rewrite pymin_same. reflexivity.
  - intros Hempty lsl usl. unfold script_body. rewrite Hempty. reflexivity.
Qed.

Lemma no_present_value_gives_nan_witness :
  (calculate_control_chart_metrics (Run.frame [] []) "tbl_speed"
     = Ok (PrimFloat.nan, PrimFloat.nan, PrimFloat.nan) /\
   forall lsl usl : binary64,
     calculate_process_capability (Run.frame [] []) "tbl_speed" lsl usl
       = Ok (PrimFloat.nan, PrimFloat.nan)) /\
  forall lsl usl : binary64,
    script_body (Run.frame [] []) "tbl_speed" lsl usl
      = Ok (ErrorBox no_data_message).
Proof.
  split.
  - exact (proj1 (no_present_value_gives_nan (Run.frame [] []) "tbl_speed")
             [] eq_refl eq_refl).
  - exact (proj2 (no_present_value_gives_nan (Run.frame [] []) "tbl_speed")
             eq_refl).
Defined.

(** C4, as the spec words it, fails: a frame of one row whose measurement is
    missing passes the [data.empty] test, and the calculator returns three
    NaN rather than raising; so does the calculator on a frame without rows. *)
Lemma empty_series_does_not_raise :
  let data := Run.frame [1542844800000000000%Z] [PrimFloat.nan] in
  empty data = false /\
  calculate_control_chart_metrics data "tbl_speed"
    = Ok (PrimFloat.nan, PrimFloat.nan, PrimFloat.nan) /\
  (forall e, calculate_control_chart_metrics data "tbl_speed" <> Raise e) /\
  Run.limits_of [] = Ok (PrimFloat.nan, PrimFloat.nan, PrimFloat.nan).
Proof.
  cbv zeta. repeat split; try reflexivity.
  intros e. vm_compute. discriminate.
Qed.

(** ** Capability indices *)

(** C6.  Whenever the metric is a column of the frame, the calculator returns
    a pair whose [ppk] is its [cpk], whatever the series and the limits. *)
Theorem ppk_is_cpk
  {F : Type} `{PyFloat F} (data : DataFrame F) (metric : string)
  (col : list F) (lsl usl : F) :
  getitem data metric = Ok col ->
  exists cpk : F,
    calculate_process_capability data metric lsl usl = Ok (cpk, cpk).
Proof.
  intros Hcol. unfold calculate_process_capability.
  rewrite Hcol; cbn [bind]. eexists. reflexivity.
Qed.

Lemma ppk_is_cpk_witness :
  exists cpk : binary64,
    Run.capability_of [95; 100; 105]%float 85%float 115%float = Ok (cpk, cpk).
Proof.
  exact (@ppk_is_cpk binary64 _ (Run.frame [] [95; 100; 105]%float)
           "tbl_speed" [95; 100; 105]%float 85%float 115%float eq_refl).
Defined.

(** C5.  When the standard deviation of the series compares equal to zero,
    [cpu] and [cpl] are both [float('inf')], and so are [cpk] and [ppk]; no
    error is raised. *)
Theorem zero_std_gives_infinity
  {F : Type} `{PyFloat F} (data : DataFrame F) (metric : string)
  (col : list F) (lsl usl : F) :
  getitem data metric = Ok col ->
  feqb (series_std col) (of_nat 0) = true ->
  fltb lsl usl = true ->
  capability_cpu (series_mean col) (series_std col) usl = inf /\
  capability_cpl (series_mean col) (series_std col) lsl = inf /\
  calculate_process_capability data metric lsl usl = Ok (inf, inf).
Proof.
  intros Hcol Hzero _.
  assert (Hu : capability_cpu (series_mean col) (series_std col) usl = inf)
    by (unfold capability_cpu; rewrite Hzero; reflexivity).
  assert (Hl : capability_cpl (series_mean col) (series_std col) lsl = inf)
    by (unfold capability_cpl; rewrite Hzero; reflexivity).
  repeat split; trivial.
  unfold calculate_process_capability. rewrite Hcol; cbn [bind].
  rewrite Hu, Hl. unfold pymin. destruct (fltb inf inf); reflexivity.
Qed.

Lemma zero_std_gives_infinity_witness :
  capability_cpu 5%float 0%float 6%float = PrimFloat.infinity /\
  capability_cpl 5%float 0%float 4%float = PrimFloat.infinity /\
  Run.capability_of [5; 5]%float 4%float 6%float
    = Ok (PrimFloat.infinity, PrimFloat.infinity).
Proof.
  exact (@zero_std_gives_infinity binary64 _ (Run.frame [] [5; 5]%float)
           "tbl_speed" [5; 5]%float 4%float 6%float eq_refl eq_refl eq_refl).
Defined.

(** C10.  On a series with exactly one present value the standard deviation
    is NaN, [std != 0] holds, the two quotients by [3 * std] are NaN, and the
    calculator returns (NaN, NaN). *)
Theorem single_value_capability_is_nan
  {F : Type} `{NaNLaws F} (data : DataFrame F) (metric : string)
  (col : list F) (x lsl usl : F) :
  getitem data metric = Ok col ->
  dropna col = [x] ->
  series_std col = nan /\
  negb (feqb (series_std col) (of_nat 0)) = true /\
  capability_cpu (series_mean col) (series_std col) usl = nan /\
  capability_cpl (series_mean col) (series_std col) lsl = nan /\
  calculate_process_capability data metric lsl usl = Ok (nan, nan).
Proof.
  intros Hcol Hone.
  assert (Hstd : series_std col = nan)
    by (apply series_std_few; rewrite Hone; cbn; lia).
  destruct (nan_capability (series_mean col) usl lsl) as [Hu Hl].
  rewrite Hstd. repeat split; trivial.
  - rewrite feqb_nan_l. reflexivity.
  - unfold calculate_process_capability. rewrite Hcol; cbn [bind].
    rewrite Hstd, Hu, Hl. rewrite pymin_same. reflexivity.
Qed.

Lemma single_value_capability_is_nan_witness :
  series_std [7]%float = PrimFloat.nan /\
  negb (feqb (series_std [7]%float) (of_nat 0)) = true /\
  capability_cpu (series_mean [7]%float) (series_std [7]%float) 9%float
    = PrimFloat.nan /\
  capability_cpl (series_mean [7]%float) (series_std [7]%float) 5%float
    = PrimFloat.nan /\
  Run.capability_of [7]%float 5%float 9%float
    = Ok (PrimFloat.nan, PrimFloat.nan).
Proof.
  exact (@single_value_capability_is_nan binary64 _ _
           (Run.frame [] [7]%float) "tbl_speed" [7]%float 7%float
           5%float 9%float eq_refl eq_refl).
Defined.

(** ** Doubles without rounding: the statistics of a finite series *)

Section FiniteSeries.

Local Open Scope R_scope.

Lemma Reqb_true {a b : R} : a = b -> Reqb a b = true.
Proof. intros E. unfold Reqb. destruct (Req_dec_T a b); congruence. Qed.

Lemma Reqb_false {a b : R} : a <> b -> Reqb a b = false.
Proof. intros E. unfold Reqb. destruct (Req_dec_T a b); congruence. Qed.

Lemma Rltb_true {a b : R} : a < b -> Rltb a b = true.
Proof. intros E. unfold Rltb. destruct (Rlt_dec a b); [reflexivity | lra]. Qed.

Lemma Rltb_false {a b : R} : b <= a -> Rltb a b = false.
Proof. intros E. unfold Rltb. destruct (Rlt_dec a b); [lra | reflexivity]. Qed.

Lemma Rleb_true {a b : R} : a <= b -> Rleb a b = true.
Proof. intros E. unfold Rleb. destruct (Rle_dec a b); [reflexivity | lra]. Qed.

Lemma Rleb_false {a b : R} : b < a -> Rleb a b = false.
Proof. intros E. unfold Rleb. destruct (Rle_dec a b); [lra | reflexivity]. Qed.

Lemma xdiv_fin (a b : R) : b <> 0 -> xdiv (XFin a) (XFin b) = XFin (a / b).
Proof. intros Hb. cbn. rewrite (Reqb_false Hb). reflexivity. Qed.

Lemma xsqrt_fin (a : R) : 0 <= a -> xsqrt (XFin a) = XFin (sqrt a).
Proof. intros Ha. cbn. rewrite (Rltb_false Ha). reflexivity. Qed.

Lemma pymin_fin (a b : R) : pymin (XFin a) (XFin b) = XFin (Rmin a b).
Proof.
  unfold pymin, Rmin. cbn. unfold Rltb.
  destruct (Rlt_dec b a), (Rle_dec a b); try reflexivity; lra.
Qed.

(** The present values of a series of the data model are its finite cells. *)
Lemma dropna_finite {col : list xreal} :
  finite_series col -> dropna col = map XFin (present col).
Proof.
  induction 1 as [| x col Hx _ IH]; [reflexivity |].
  destruct x; cbn in *; [assumption | contradiction | now f_equal].
Qed.

Lemma dropna_length (col : list xreal) :
  finite_series col ->
  List.length (dropna col) = List.length (present col).
Proof. intros Hf. rewrite (dropna_finite Hf). apply length_map. Qed.

Lemma fold_fadd_fin (rs : list R) (a : R) :
  fold_left fadd (map XFin rs) (XFin a) = XFin (a + Rtotal rs).
Proof.
  revert a. induction rs as [| r rs IH]; intros a; cbn.
  - f_equal. lra.
  - rewrite IH. f_equal. lra.
Qed.

Lemma fsum_fin (rs : list R) : fsum (map XFin rs) = XFin (Rtotal rs).
Proof.
  unfold fsum. cbn [of_nat xreal_float INR]. rewrite fold_fadd_fin.
  f_equal. lra.
Qed.

Lemma total_fin (rs : list R) : total (map XFin rs) = XFin (Rtotal rs).
Proof.
  induction rs as [| r rs IH]; [reflexivity |].
  cbn [map total fold_right]. fold (total (map XFin rs)). rewrite IH.
  reflexivity.
Qed.

Lemma Rtotal_ext (f g : R -> R) (rs : list R) :
  (forall r, f r = g r) -> Rtotal (map f rs) = Rtotal (map g rs).
Proof.
  intros E. induction rs as [| r rs IH]; cbn; [reflexivity |].
  now rewrite E, IH.
Qed.

Lemma Rtotal_squares_nonneg (m : R) (rs : list R) :
  0 <= Rtotal (map (fun r => (r - m) * (r - m)) rs).
Proof.
  induction rs as [| r rs IH]; cbn; [lra |].
  pose proof (Rle_0_sqr (r - m)) as Hs. unfold Rsqr in Hs. lra.
Qed.

Lemma INR_length_pos {rs : list R} : rs <> [] -> 0 < INR (List.length rs).
Proof.
  intros Hne. apply lt_0_INR. destruct rs; [congruence | cbn; lia].
Qed.

Lemma INR_length_pred_pos (rs : list R) :
  (2 <= List.length rs)%nat -> 0 < INR (List.length rs) - 1.
Proof.
  intros Hn. apply le_INR in Hn. cbn in Hn. lra.
Qed.

Lemma Rsample_var_nonneg (rs : list R) :
  (2 <= List.length rs)%nat ->
  0 <= Rtotal (map (fun r => (r - Rmean rs) * (r - Rmean rs)) rs)
       / (INR (List.length rs) - 1).
Proof.
  intros Hn. apply Rmult_le_pos; [apply Rtotal_squares_nonneg |].
  left. apply Rinv_0_lt_compat. now apply INR_length_pred_pos.
Qed.

Lemma Rsample_std_nonneg (rs : list R) : 0 <= Rsample_std rs.
Proof. apply sqrt_pos. Qed.

(** [Series.mean()] of a series with a present value. *)
Lemma series_mean_fin (col : list xreal) :
  finite_series col -> present col <> [] ->
  series_mean col = XFin (Rmean (present col)).
Proof.
  intros Hf Hne. unfold series_mean. rewrite (dropna_finite Hf).
  rewrite length_map.
  assert (Hlen : (0 <? List.length (present col))%nat = true).
  { apply Nat.ltb_lt. destruct (present col); [congruence | cbn; lia]. }
  rewrite Hlen, fsum_fin. cbn [of_nat xreal_float fdiv].
  apply xdiv_fin. pose proof (INR_length_pos Hne). lra.
Qed.

(** [Series.std()] of a series with two present values or more. *)
Lemma series_std_fin (col : list xreal) :
  finite_series col -> (2 <= List.length (present col))%nat ->
  series_std col = XFin (Rsample_std (present col)).
Proof.
  intros Hf Hn. unfold series_std, series_var. rewrite (dropna_finite Hf).
  rewrite length_map.
  assert (Hlen : (List.length (present col) <=? 1)%nat = false)
    by (apply Nat.leb_gt; lia).
  rewrite Hlen, fsum_fin. cbn [of_nat xreal_float fdiv fsub fmul fsqrt].
  pose proof (INR_length_pred_pos _ Hn) as Hd.
  rewrite xdiv_fin by lra.
  rewrite map_map. cbn [xsub xneg xadd xmul].
  match goal with
  | |- context [map (fun x : R => XFin (@?g x)) ?l] =>
      replace (map (fun x : R => XFin (g x)) l) with (map XFin (map g l))
        by apply map_map
  end.
  rewrite fsum_fin. cbn [INR].
  rewrite xdiv_fin by lra.
  rewrite (Rtotal_ext _ (fun r => (r - Rmean (present col))
                                  * (r - Rmean (present col))))
    by (intros r; unfold Rmean; ring).
  replace (INR (List.length (present col)) + - 1)
    with (INR (List.length (present col)) - 1) by ring.
  apply xsqrt_fin. now apply Rsample_var_nonneg.
Qed.

End FiniteSeries.

(** ** The spec's statistics on doubles without rounding *)

Section SpecOnReals.

Local Open Scope R_scope.

Lemma arithmetic_mean_fin (rs : list R) :
  rs <> [] -> arithmetic_mean (map XFin rs) = XFin (Rmean rs).
Proof.
  intros Hne. unfold arithmetic_mean. rewrite total_fin, length_map.
  cbn [of_nat xreal_float fdiv]. apply xdiv_fin.
  pose proof (INR_length_pos Hne). lra.
Qed.

Lemma sample_std_fin (rs : list R) :
  (2 <= List.length rs)%nat ->
  sample_std (map XFin rs) = XFin (Rsample_std rs).
Proof.
  intros Hn. unfold sample_std.
  rewrite arithmetic_mean_fin by (destruct rs; [cbn in Hn; lia | congruence]).
  rewrite map_map. unfold squared_deviation.
  cbn [fsub fmul xreal_float xsub xneg xadd xmul].
  match goal with
  | |- context [map (fun x : R => XFin (@?g x)) ?l] =>
      replace (map (fun x : R => XFin (g x)) l) with (map XFin (map g l))
        by apply map_map
  end.
  rewrite total_fin, length_map. cbn [of_nat xreal_float fdiv fsqrt].
  pose proof (INR_length_pred_pos _ Hn) as Hd.
  assert (Hpred : INR (List.length rs - 1) = INR (List.length rs) - 1).
  { rewrite minus_INR by lia. reflexivity. }
  rewrite Hpred, xdiv_fin by lra.
  rewrite (Rtotal_ext _ (fun r => (r - Rmean rs) * (r - Rmean rs)))
    by (intros r; ring).
  apply xsqrt_fin. now apply Rsample_var_nonneg.
Qed.

(** With one value the spec's quotient is 0 / 0. *)
Lemma sample_std_one (r : R) : sample_std [XFin r] = XNaN.
Proof.
  unfold sample_std, arithmetic_mean, squared_deviation. cbn.
  assert (Hone : (1 : R) <> 0) by lra.
  rewrite (Reqb_false Hone). cbn.
  rewrite (Reqb_true (eq_refl 0)).
  assert (Hnum : (r + - ((r + 0) / 1)) * (r + - ((r + 0) / 1)) + 0 = 0)
    by (field_simplify; lra).
  rewrite (Reqb_true Hnum). reflexivity.
Qed.

Lemma three_sigma (m s : R) :
  fadd (XFin m) (fmul (of_nat 3) (XFin s)) = XFin (m + 3 * s) /\
  fsub (XFin m) (fmul (of_nat 3) (XFin s)) = XFin (m - 3 * s).
Proof. split; cbn; f_equal; lra. Qed.

Lemma present_single (col : list xreal) (r : R) :
  finite_series col -> present col = [r] -> dropna col = [XFin r].
Proof. intros Hf Hr. rewrite (dropna_finite Hf), Hr. reflexivity. Qed.

End SpecOnReals.

(** ** Control limits *)

Section ControlLimits.

Local Open Scope R_scope.

Variable data : DataFrame xreal.
Variable metric : string.
Variable col : list xreal.
Hypothesis Hcol : getitem data metric = Ok col.
Hypothesis Hfinite : finite_series col.

Lemma limits_unfold :
  calculate_control_chart_metrics data metric =
  Ok (series_mean col,
      fadd (series_mean col) (fmul (of_nat 3) (series_std col)),
      fsub (series_mean col) (fmul (of_nat 3) (series_std col))).
Proof.
  unfold calculate_control_chart_metrics. rewrite Hcol. reflexivity.
Qed.

Lemma limits_of_two_or_more :
  (2 <= List.length (present col))%nat ->
  calculate_control_chart_metrics data metric =
  Ok (XFin (Rmean (present col)),
      XFin (Rmean (present col) + 3 * Rsample_std (present col)),
      XFin (Rmean (present col) - 3 * Rsample_std (present col))).
Proof.
  intros Hn. rewrite limits_unfold.
  rewrite series_mean_fin, series_std_fin; trivial.
  - destruct (three_sigma (Rmean (present col)) (Rsample_std (present col)))
      as [-> ->]. reflexivity.
  - destruct (present col); [cbn in Hn; lia | congruence].
Qed.

End ControlLimits.

(** C1.  On a series of the data model with at least one present value the
    calculator returns the arithmetic mean of the present values and the
    limits [mean + 3 * std] and [mean - 3 * std], where [std] is the sample
    standard deviation (denominator [n - 1]) of the present values; absent
    cells do not count.  With two values or more these are the real-number
    statistics; with one value the quotient by [n - 1] is 0 / 0. *)
Theorem control_limits_follow_spec
  (data : DataFrame xreal) (metric : string) (col : list xreal) :
  getitem data metric = Ok col ->
  finite_series col ->
  dropna col <> [] ->
  let xs := dropna col in
  let mean := arithmetic_mean xs in
  let std := sample_std xs in
  series_mean col = mean /\
  series_std col = std /\
  calculate_control_chart_metrics data metric =
    Ok (mean, fadd mean (fmul (of_nat 3) std),
        fsub mean (fmul (of_nat 3) std)) /\
  mean = XFin (Rmean (present col)) /\
  ((2 <= List.length (present col))%nat ->
   std = XFin (Rsample_std (present col)) /\
   calculate_control_chart_metrics data metric =
     Ok (XFin (Rmean (present col)),
         XFin (Rmean (present col) + 3 * Rsample_std (present col)),
         XFin (Rmean (present col) - 3 * Rsample_std (present col))))%R.
Proof.
  intros Hcol Hf Hne xs mean std. subst xs mean std.
  rewrite (limits_unfold data metric col Hcol).
  rewrite (dropna_finite Hf) in *.
  assert (Hpne : present col <> [])
    by (intros E; rewrite E in Hne; now apply Hne).
  assert (Hmean : series_mean col = arithmetic_mean (map XFin (present col)))
    by (rewrite series_mean_fin, arithmetic_mean_fin; trivial).
  assert (Hstd : series_std col = sample_std (map XFin (present col))).
  { destruct (present col) as [| r [| r' rs]] eqn:Hp; [congruence | |].
    - cbn [map]. rewrite sample_std_one.
      refine (@series_std_few xreal xreal_float xreal_nan_laws col _).
      rewrite (present_single col r Hf Hp). cbn. lia.
    - rewrite <- Hp. rewrite series_std_fin, sample_std_fin; trivial;
        rewrite Hp; cbn; lia. }
  rewrite Hmean, Hstd. repeat split; trivial.
  - now apply arithmetic_mean_fin.
  - now apply sample_std_fin.
  - rewrite <- Hmean, <- Hstd, <- (limits_unfold data metric col Hcol).
    now apply limits_of_two_or_more.
Qed.

Lemma control_limits_follow_spec_witness :
  Run.limits_of [XFin 10; XNaN; XFin 12]
  = Ok (XFin (Rmean [10; 12]),
        XFin (Rmean [10; 12] + 3 * Rsample_std [10; 12]),
        XFin (Rmean [10; 12] - 3 * Rsample_std [10; 12]))%R.
Proof.
  assert (Hf : finite_series [XFin 10; XNaN; XFin 12])
    by (repeat constructor).
  assert (Hne : dropna [XFin 10; XNaN; XFin 12] <> [])
    by (cbn; discriminate).
  destruct (control_limits_follow_spec
              (Run.frame [] [XFin 10; XNaN; XFin 12]) "tbl_speed"
              [XFin 10; XNaN; XFin 12] eq_refl Hf Hne)
    as (_ & _ & _ & _ & Htwo).
  apply Htwo. cbn. lia.
Defined.

(** Scenario 1 of the spec on doubles: the series 10, 12, 11, 13, 9 has mean
    11 and limits about 15.74 and 6.26 (between 15.625 and 15.75, and between 6.25
    and 6.375). *)
Lemma scenario_1_binary64 :
  exists ucl lcl : binary64,
    Run.limits_of [10; 12; 11; 13; 9]%float = Ok (11%float, ucl, lcl) /\
    (15.625 <? ucl)%float = true /\ (ucl <? 15.75)%float = true /\
    (6.25 <? lcl)%float = true /\ (lcl <? 6.375)%float = true.
Proof. do 2 eexists. repeat split; vm_compute; reflexivity. Qed.

(** *** One present value *)

Section OneValue.

Local Open Scope R_scope.

Lemma series_mean_single (col : list xreal) (r : R) :
  dropna col = [XFin r] -> series_mean col = XFin r.
Proof.
  intros Hone. unfold series_mean. rewrite Hone. cbn.
  assert (H10 : (1 : R) <> 0) by lra.
  rewrite (Reqb_false H10). f_equal. field.
Qed.

Lemma limits_single
  (data : DataFrame xreal) (metric : string) (col : list xreal) (r : R) :
  getitem data metric = Ok col ->
  dropna col = [XFin r] ->
  calculate_control_chart_metrics data metric = Ok (XFin r, XNaN, XNaN).
Proof.
  intros Hcol Hone. rewrite (limits_unfold data metric col Hcol).
  assert (Hstd : series_std col = XNaN).
  { refine (@series_std_few xreal xreal_float xreal_nan_laws col _).
    rewrite Hone. cbn. lia. }
  rewrite Hstd, (series_mean_single col r Hone). reflexivity.
Qed.

End OneValue.

(** C7, as the code has it.  On a series with exactly one present value the
    calculator raises nothing and returns that value as the mean; the
    standard deviation is NaN, not 0, and so are both limits. *)
Theorem single_value_limits_are_nan
  (data : DataFrame xreal) (metric : string) (col : list xreal) (r : R) :
  getitem data metric = Ok col ->
  dropna col = [XFin r] ->
  series_std col = XNaN /\
  calculate_control_chart_metrics data metric = Ok (XFin r, XNaN, XNaN).
Proof.
  intros Hcol Hone. split.
  - refine (@series_std_few xreal xreal_float xreal_nan_laws col _).
    rewrite Hone. cbn. lia.
  - exact (limits_single data metric col r Hcol Hone).
Qed.

Lemma single_value_limits_are_nan_witness :
  series_std [XFin 7] = XNaN /\
  Run.limits_of [XFin 7] = Ok (XFin 7, XNaN, XNaN).
Proof.
  exact (single_value_limits_are_nan (Run.frame [] [XFin 7]) "tbl_speed"
           [XFin 7] 7%R eq_refl eq_refl).
Defined.

(** C7, as the spec words it, fails: for the series [7] the limits are NaN,
    which is not equal to the mean 7, on doubles and without rounding. *)
Lemma single_value_limits_differ_from_mean :
  Run.limits_of [7]%float = Ok (7%float, PrimFloat.nan, PrimFloat.nan) /\
  (PrimFloat.nan =? 7)%float = false /\
  PrimFloat.nan <> 7%float /\
  Run.limits_of [XFin 7] = Ok (XFin 7, XNaN, XNaN) /\
  feqb XNaN (XFin 7) = false /\
  XNaN <> XFin 7.
Proof.
  repeat split; try reflexivity.
  - intros E. apply (f_equal PrimFloat.is_nan) in E. vm_compute in E.
    discriminate.
  - apply (limits_single (Run.frame [] [XFin 7]) "tbl_speed" [XFin 7] 7%R);
      reflexivity.
  - discriminate.
Qed.

(** *** The limits around the mean *)

Section Bracket.

Local Open Scope R_scope.

Lemma Reqb_iff (a b : R) : Reqb a b = true <-> a = b.
Proof.
  unfold Reqb. destruct (Req_dec_T a b); split; congruence.
Qed.

End Bracket.

(** C8, as the code has it.  On a series of the data model with two present
    values or more, [lcl <= mean <= ucl]; [lcl == mean] exactly when
    [std == 0], and [mean == ucl] exactly when [std == 0]. *)
Theorem limits_bracket_mean
  (data : DataFrame xreal) (metric : string) (col : list xreal) :
  getitem data metric = Ok col ->
  finite_series col ->
  (2 <= List.length (dropna col))%nat ->
  exists mean ucl lcl : xreal,
    calculate_control_chart_metrics data metric = Ok (mean, ucl, lcl) /\
    fleb lcl mean = true /\
    fleb mean ucl = true /\
    (feqb lcl mean = true <-> feqb (series_std col) (of_nat 0) = true) /\
    (feqb mean ucl = true <-> feqb (series_std col) (of_nat 0) = true).
Proof.
  intros Hcol Hf Hn. rewrite (dropna_length col Hf) in Hn.
  rewrite (limits_of_two_or_more data metric col Hcol Hf Hn).
  rewrite (series_std_fin col Hf Hn).
  pose proof (Rsample_std_nonneg (present col)) as Hs.
  do 3 eexists. split; [reflexivity |]. cbn.
  repeat split.
  - apply Rleb_true. lra.
  - apply Rleb_true. lra.
  - intros E. apply Reqb_iff in E. apply Reqb_iff. lra.
  - intros E. apply Reqb_iff in E. apply Reqb_iff. lra.
  - intros E. apply Reqb_iff in E. apply Reqb_iff. lra.
  - intros E. apply Reqb_iff in E. apply Reqb_iff. lra.
Qed.

Lemma limits_bracket_mean_witness :
  exists mean ucl lcl : xreal,
    Run.limits_of [XFin 10; XFin 12] = Ok (mean, ucl, lcl) /\
    fleb lcl mean = true /\
    fleb mean ucl = true /\
    (feqb lcl mean = true <->
     feqb (series_std [XFin 10; XFin 12]) (of_nat 0) = true) /\
    (feqb mean ucl = true <->
     feqb (series_std [XFin 10; XFin 12]) (of_nat 0) = true).
Proof.
  assert (Hf : finite_series [XFin 10; XFin 12]) by (repeat constructor).
  assert (Hn : (2 <= List.length (dropna [XFin 10; XFin 12]))%nat)
    by (cbn; lia).
  exact (limits_bracket_mean (Run.frame [] [XFin 10; XFin 12]) "tbl_speed"
           [XFin 10; XFin 12] eq_refl Hf Hn).
Defined.

(** C8, as the spec words it, fails on the non-empty finite series [7]: the
    limits are NaN and neither [lcl <= mean] nor [mean <= ucl] holds. *)
Lemma single_value_limits_do_not_bracket :
  finite_series [XFin 7] /\
  dropna [XFin 7] <> [] /\
  Run.limits_of [XFin 7] = Ok (XFin 7, XNaN, XNaN) /\
  fleb XNaN (XFin 7) = false /\
  fleb (XFin 7) XNaN = false /\
  Run.limits_of [7]%float = Ok (7%float, PrimFloat.nan, PrimFloat.nan) /\
  (PrimFloat.nan <=? 7)%float = false /\
  (7 <=? PrimFloat.nan)%float = false.
Proof.
  repeat split; try reflexivity.
  - repeat constructor.
  - cbn. discriminate.
  - apply (limits_single (Run.frame [] [XFin 7]) "tbl_speed" [XFin 7] 7%R);
      reflexivity.
Qed.

(** ** Capability indices of a finite series *)

Section Capability.

Local Open Scope R_scope.

Lemma capability_unfold {F : Type} `{PyFloat F}
  (data : DataFrame F) (metric : string) (col : list F) (lsl usl : F) :
  getitem data metric = Ok col ->
  calculate_process_capability data metric lsl usl =
  Ok (pymin (capability_cpu (series_mean col) (series_std col) usl)
            (capability_cpl (series_mean col) (series_std col) lsl),
      pymin (capability_cpu (series_mean col) (series_std col) usl)
            (capability_cpl (series_mean col) (series_std col) lsl)).
Proof.
  intros Hcol. unfold calculate_process_capability. rewrite Hcol.
  reflexivity.
Qed.

Lemma capability_cpu_fin (m s u : R) :
  s <> 0 ->
  capability_cpu (XFin m) (XFin s) (XFin u) = XFin ((u - m) / (3 * s)).
Proof.
  intros Hs. unfold capability_cpu. cbn.
  rewrite (Reqb_false Hs). cbn.
  assert (Hd : (1 + 1 + 1) * s <> 0) by (intros E; apply Hs; lra).
  rewrite (Reqb_false Hd). f_equal. field. assumption.
Qed.

Lemma capability_cpl_fin (m s l : R) :
  s <> 0 ->
  capability_cpl (XFin m) (XFin s) (XFin l) = XFin ((m - l) / (3 * s)).
Proof.
  intros Hs. unfold capability_cpl. cbn.
  rewrite (Reqb_false Hs). cbn.
  assert (Hd : (1 + 1 + 1) * s <> 0) by (intros E; apply Hs; lra).
  rewrite (Reqb_false Hd). f_equal. field. assumption.
Qed.

Lemma capability_zero (m b : xreal) :
  capability_cpu m (XFin 0) b = XInf false /\
  capability_cpl m (XFin 0) b = XInf false.
Proof.
  unfold capability_cpu, capability_cpl. cbn.
  rewrite (Reqb_true (eq_refl 0)). split; reflexivity.
Qed.

Lemma quotient_monotone (a b s : R) :
  0 < s -> a <= b -> a / (3 * s) <= b / (3 * s).
Proof.
  intros Hs Hab. apply Rmult_le_compat_r; [| assumption].
  left. apply Rinv_0_lt_compat. lra.
Qed.

Lemma Rmin_monotone (a b c d : R) :
  a <= c -> b <= d -> Rmin a b <= Rmin c d.
Proof.
  intros Hac Hbd. apply Rmin_glb.
  - pose proof (Rmin_l a b). lra.
  - pose proof (Rmin_r a b). lra.
Qed.

(** The series 95, 100, 105 of scenario 2: mean 100, deviation 5. *)
Lemma scenario_2_Rmean : Rmean [95; 100; 105] = 100.
Proof. unfold Rmean. cbn. field. Qed.

Lemma scenario_2_Rsample_std : Rsample_std [95; 100; 105] = 5.
Proof.
  unfold Rsample_std. rewrite scenario_2_Rmean. cbn.
  replace ((95 - 100) * (95 - 100)
           + ((100 - 100) * (100 - 100)
              + ((105 - 100) * (105 - 100) + 0))) with (5 * 5 * (1 + 1))
    by ring.
  replace (5 * 5 * (1 + 1) / (1 + 1 + 1 - 1)) with (5 * 5) by field.
  apply sqrt_square. lra.
Qed.

Lemma scenario_2_mean :
  series_mean [XFin 95; XFin 100; XFin 105] = XFin 100.
Proof.
  rewrite series_mean_fin; [| repeat constructor | cbn; discriminate].
  cbn [present]. now rewrite scenario_2_Rmean.
Qed.

Lemma scenario_2_std :
  series_std [XFin 95; XFin 100; XFin 105] = XFin 5.
Proof.
  rewrite series_std_fin; [| repeat constructor | cbn; lia].
  cbn [present]. now rewrite scenario_2_Rsample_std.
Qed.

End Capability.

(** C2.  When [std != 0] the calculator returns [cpk = min(cpu, cpl)] with
    [cpu = (usl - mean) / (3 * std)] and [cpl = (mean - lsl) / (3 * std)];
    on finite numbers [min] is the smaller of the two quotients; and with
    mean 100, deviation 5 and limits 85 and 115 both quotients, [cpk] and
    [ppk] are 1. *)
Theorem capability_follows_spec
  (data : DataFrame xreal) (metric : string) (col : list xreal)
  (lsl usl : xreal) :
  getitem data metric = Ok col ->
  feqb (series_std col) (of_nat 0) = false ->
  let mean := series_mean col in
  let std := series_std col in
  let cpu := fdiv (fsub usl mean) (fmul (of_nat 3) std) in
  let cpl := fdiv (fsub mean lsl) (fmul (of_nat 3) std) in
  calculate_process_capability data metric lsl usl
    = Ok (pymin cpu cpl, pymin cpu cpl) /\
  (forall m s l u : R,
     mean = XFin m -> std = XFin s -> lsl = XFin l -> usl = XFin u ->
     cpu = XFin ((u - m) / (3 * s)) /\
     cpl = XFin ((m - l) / (3 * s)) /\
     pymin cpu cpl = XFin (Rmin ((u - m) / (3 * s)) ((m - l) / (3 * s)))) /\
  (mean = XFin 100 -> std = XFin 5 -> lsl = XFin 85 -> usl = XFin 115 ->
   cpu = XFin 1 /\ cpl = XFin 1 /\
   calculate_process_capability data metric lsl usl
     = Ok (XFin 1, XFin 1))%R.
Proof.
  intros Hcol Hnz mean std cpu cpl.
  assert (Hu : capability_cpu mean std usl = cpu)
    by (unfold capability_cpu; subst std; rewrite Hnz; reflexivity).
  assert (Hl : capability_cpl mean std lsl = cpl)
    by (unfold capability_cpl; subst std; rewrite Hnz; reflexivity).
  assert (Hcalc : calculate_process_capability data metric lsl usl
                  = Ok (pymin cpu cpl, pymin cpu cpl)).
  { rewrite (capability_unfold data metric col lsl usl Hcol).
    fold mean std. rewrite Hu, Hl. reflexivity. }
  assert (Hfin : (forall m s l u : R,
     mean = XFin m -> std = XFin s -> lsl = XFin l -> usl = XFin u ->
     cpu = XFin ((u - m) / (3 * s)) /\
     cpl = XFin ((m - l) / (3 * s)) /\
     pymin cpu cpl
       = XFin (Rmin ((u - m) / (3 * s)) ((m - l) / (3 * s))))%R).
  { intros m s l u Hm Hs Hlsl Husl.
    assert (Hs0 : s <> 0%R).
    { intros E. subst std. rewrite Hs, E in Hnz. cbn in Hnz.
      rewrite (Reqb_true (eq_refl 0%R)) in Hnz. discriminate. }
    rewrite <- Hu, <- Hl, Hm, Hs, Hlsl, Husl.
    rewrite (capability_cpu_fin m s u Hs0), (capability_cpl_fin m s l Hs0).
    repeat split. apply pymin_fin. }
  split; [exact Hcalc |]. split; [exact Hfin |].
  intros Hm Hs Hlsl Husl.
  destruct (Hfin 100%R 5%R 85%R 115%R Hm Hs Hlsl Husl) as (Hcu & Hcl & Hmin).
  assert (Hcu1 : cpu = XFin 1) by (rewrite Hcu; f_equal; field).
  assert (Hcl1 : cpl = XFin 1) by (rewrite Hcl; f_equal; field).
  rewrite Hcalc, Hcu1, Hcl1. repeat split.
  rewrite pymin_same. reflexivity.
Qed.

Lemma capability_follows_spec_witness :
  Run.capability_of [XFin 95; XFin 100; XFin 105] (XFin 85) (XFin 115)
  = Ok (XFin 1, XFin 1).
Proof.
  assert (Hnz : feqb (series_std [XFin 95; XFin 100; XFin 105]) (of_nat 0)
                = false).
  { rewrite scenario_2_std. cbn. apply Reqb_false. lra. }
  destruct (capability_follows_spec
              (Run.frame [] [XFin 95; XFin 100; XFin 105]) "tbl_speed"
              [XFin 95; XFin 100; XFin 105] (XFin 85) (XFin 115)
              eq_refl Hnz) as (_ & _ & Hexample).
  apply Hexample; auto using scenario_2_mean, scenario_2_std.
Defined.

(** Scenario 2 of the spec on doubles. *)
Lemma scenario_2_binary64 :
  Run.limits_of [95; 100; 105]%float
    = Ok (100, 115, 85)%float /\
  series_std [95; 100; 105]%float = 5%float /\
  capability_cpu 100%float 5%float 115%float = 1%float /\
  capability_cpl 100%float 5%float 85%float = 1%float /\
  Run.capability_of [95; 100; 105]%float 85%float 115%float
    = Ok (1, 1)%float.
Proof. repeat split; vm_compute; reflexivity. Qed.

(** C9, as the code has it.  For a series of the data model with two present
    values or more (so that mean and deviation are numbers), [cpk] does not
    decrease when the limits widen on both sides: if [lsl2 <= lsl1] and
    [usl1 <= usl2] then [cpk] at [(lsl1, usl1)] is at most [cpk] at
    [(lsl2, usl2)]. *)
Theorem cpk_monotone_in_nested_limits
  (data : DataFrame xreal) (metric : string) (col : list xreal)
  (lsl1 usl1 lsl2 usl2 : R) :
  getitem data metric = Ok col ->
  finite_series col ->
  (2 <= List.length (dropna col))%nat ->
  (lsl2 <= lsl1)%R ->
  (usl1 <= usl2)%R ->
  exists cpk1 cpk2 : xreal,
    calculate_process_capability data metric (XFin lsl1) (XFin usl1)
      = Ok (cpk1, cpk1) /\
    calculate_process_capability data metric (XFin lsl2) (XFin usl2)
      = Ok (cpk2, cpk2) /\
    fleb cpk1 cpk2 = true.
Proof.
  intros Hcol Hf Hn Hl Hu. rewrite (dropna_length col Hf) in Hn.
  rewrite !(capability_unfold data metric col _ _ Hcol).
  assert (Hne : present col <> [])
    by (destruct (present col); [cbn in Hn; lia | congruence]).
  rewrite (series_mean_fin col Hf Hne), (series_std_fin col Hf Hn).
  pose proof (Rsample_std_nonneg (present col)) as Hs.
  set (m := Rmean (present col)) in *.
  set (s := Rsample_std (present col)) in *.
  destruct (Req_dec_T s 0) as [Hz | Hnz].
  - rewrite Hz.
    destruct (capability_zero (XFin m) (XFin usl1)) as [-> _].
    destruct (capability_zero (XFin m) (XFin lsl1)) as [_ ->].
    destruct (capability_zero (XFin m) (XFin usl2)) as [-> _].
    destruct (capability_zero (XFin m) (XFin lsl2)) as [_ ->].
    do 2 eexists. repeat split.
  - rewrite !(capability_cpu_fin m s _ Hnz), !(capability_cpl_fin m s _ Hnz).
    rewrite !pymin_fin. do 2 eexists. split; [reflexivity |].
    split; [reflexivity |]. cbn. apply Rleb_true.
    apply Rmin_monotone; apply quotient_monotone; lra.
Qed.

Lemma cpk_monotone_in_nested_limits_witness :
  exists cpk1 cpk2 : xreal,
    Run.capability_of [XFin 95; XFin 100; XFin 105] (XFin 99) (XFin 101)
      = Ok (cpk1, cpk1) /\
    Run.capability_of [XFin 95; XFin 100; XFin 105] (XFin 98) (XFin 110)
      = Ok (cpk2, cpk2) /\
    fleb cpk1 cpk2 = true.
Proof.
  assert (Hf : finite_series [XFin 95; XFin 100; XFin 105])
    by (repeat constructor).
  assert (Hn : (2 <= List.length (dropna [XFin 95; XFin 100; XFin 105]))%nat)
    by (cbn; lia).
  assert (Hl : (98 <= 99)%R) by lra.
  assert (Hu : (101 <= 110)%R) by lra.
  exact (cpk_monotone_in_nested_limits
           (Run.frame [] [XFin 95; XFin 100; XFin 105]) "tbl_speed"
           [XFin 95; XFin 100; XFin 105] 99 101 98 110 eq_refl Hf Hn Hl Hu).
Defined.

(** C9, as the spec words it, fails.  For the series 95, 100, 105 (mean 100,
    deviation 5) both (99, 101) and (100, 110) satisfy
    [lsl <= mean <= usl], the second is wider (10 against 2), and yet
    [cpk] falls from 1/15 to 0: on doubles and without rounding. *)
Lemma wider_limits_smaller_cpk :
  (exists cpk1 : binary64,
     Run.limits_of [95; 100; 105]%float = Ok (100, 115, 85)%float /\
     (99 <=? 100)%float = true /\ (100 <=? 101)%float = true /\
     (100 <=? 100)%float = true /\ (100 <=? 110)%float = true /\
     (101 - 99 <=? 110 - 100)%float = true /\
     Run.capability_of [95; 100; 105]%float 99%float 101%float
       = Ok (cpk1, cpk1) /\
     Run.capability_of [95; 100; 105]%float 100%float 110%float
       = Ok (0, 0)%float /\
     (cpk1 <=? 0)%float = false) /\
  (series_mean [XFin 95; XFin 100; XFin 105] = XFin 100 /\
   (99 <= 100 <= 101)%R /\ (100 <= 100 <= 110)%R /\
   (101 - 99 <= 110 - 100)%R /\
   Run.capability_of [XFin 95; XFin 100; XFin 105] (XFin 99) (XFin 101)
     = Ok (XFin (1 / 15), XFin (1 / 15)) /\
   Run.capability_of [XFin 95; XFin 100; XFin 105] (XFin 100) (XFin 110)
     = Ok (XFin 0, XFin 0) /\
   fleb (XFin (1 / 15)) (XFin 0) = false).
Proof.
  split.
  - eexists. repeat split; vm_compute; reflexivity.
  - split; [apply scenario_2_mean |].
    split; [lra |]. split; [lra |]. split; [lra |].
    unfold Run.capability_of.
    rewrite !(capability_unfold (Run.frame [] [XFin 95; XFin 100; XFin 105])
                "tbl_speed" [XFin 95; XFin 100; XFin 105] _ _ eq_refl).
    rewrite scenario_2_mean, scenario_2_std.
    assert (H5 : (5 <> 0)%R) by lra.
    rewrite !(capability_cpu_fin _ _ _ H5), !(capability_cpl_fin _ _ _ H5).
    rewrite !pymin_fin.
    replace (Rmin ((101 - 100) / (3 * 5)) ((100 - 99) / (3 * 5)))%R
      with (1 / 15)%R
      by (unfold Rmin; destruct (Rle_dec _ _); field).
    replace (Rmin ((110 - 100) / (3 * 5)) ((100 - 100) / (3 * 5)))%R
      with 0%R
      by (unfold Rmin; destruct (Rle_dec _ _); lra).
    repeat split. cbn. apply Rleb_false. lra.
Qed.

(** ** The x axis *)

Section AxisFacts.

Lemma fold_max_spec (rest : list Z) (t : Z) :
  In (fold_left Z.max rest t) (t :: rest) /\
  forall u, In u (t :: rest) -> (u <= fold_left Z.max rest t)%Z.
Proof.
  revert t. induction rest as [| r rest IH]; intros t; cbn [fold_left].
  - split; [now left |]. intros u [<- | []]. lia.
  - destruct (IH (Z.max t r)) as [Hin Hub]. split.
    + destruct Hin as [E | Hin].
      * rewrite <- E. destruct (Z.max_spec t r) as [[_ ->] | [_ ->]];
          [right; now left | now left].
      * right. now right.
    + intros u [<- | [<- | Hu]].
      * etransitivity; [| apply Hub; now left]. lia.
      * etransitivity; [| apply Hub; now left]. lia.
      * apply Hub. now right.
Qed.

Lemma fold_min_spec (rest : list Z) (t : Z) :
  In (fold_left Z.min rest t) (t :: rest) /\
  forall u, In u (t :: rest) -> (fold_left Z.min rest t <= u)%Z.
Proof.
  revert t. induction rest as [| r rest IH]; intros t; cbn [fold_left].
  - split; [now left |]. intros u [<- | []]. lia.
  - destruct (IH (Z.min t r)) as [Hin Hlb]. split.
    + destruct Hin as [E | Hin].
      * rewrite <- E. destruct (Z.min_spec t r) as [[_ ->] | [_ ->]];
          [now left | right; now left].
      * right. now right.
    + intros u [<- | [<- | Hu]].
      * etransitivity; [apply Hlb; now left |]. lia.
      * etransitivity; [apply Hlb; now left |]. lia.
      * apply Hlb. now right.
Qed.

(** [timestamps.max()] is the latest timestamp, whatever the order. *)
Lemma ts_max_spec (ts : list Z) (hi : Z) :
  ts_max ts = Some hi -> In hi ts /\ forall u, In u ts -> (u <= hi)%Z.
Proof.
  destruct ts as [| t rest]; [discriminate |].
  cbn. intros [= <-]. apply fold_max_spec.
Qed.

(** [timestamps.min()] is the earliest timestamp, whatever the order. *)
Lemma ts_min_spec (ts : list Z) (lo : Z) :
  ts_min ts = Some lo -> In lo ts /\ forall u, In u ts -> (lo <= u)%Z.
Proof.
  destruct ts as [| t rest]; [discriminate |].
  cbn. intros [= <-]. apply fold_min_spec.
Qed.

Lemma range_le_true (span : Q) (bound : Z) :
  (span <= inject_Z bound)%Q -> range_le (Some span) bound = true.
Proof. intros Hle. cbn. now apply Qle_bool_iff. Qed.

Lemma range_le_false (span : Q) (bound : Z) :
  (inject_Z bound < span)%Q -> range_le (Some span) bound = false.
Proof.
  intros Hlt. cbn. destruct (Qle_bool span (inject_Z bound)) eqn:E;
    [| reflexivity].
  apply Qle_bool_iff in E. exfalso. exact (Qlt_not_le _ _ Hlt E).
Qed.

Lemma range_le_morphism (s1 s2 : Q) (bound : Z) :
  (s1 == s2)%Q -> range_le (Some s1) bound = range_le (Some s2) bound.
Proof.
  intros E. cbn.
  destruct (Qle_bool s1 (inject_Z bound)) eqn:E1,
           (Qle_bool s2 (inject_Z bound)) eqn:E2; try reflexivity.
  - apply Qle_bool_iff in E1. rewrite E in E1. apply Qle_bool_iff in E1.
    congruence.
  - apply Qle_bool_iff in E2. rewrite <- E in E2. apply Qle_bool_iff in E2.
    congruence.
Qed.

End AxisFacts.

(** C3.  The axis depends on the span alone, through four buckets tested in
    ascending order with inclusive upper bounds: up to 86,400 s the format is
    hour:minute, the title "Time" and there are 5 ticks; up to 2,592,000 s
    month-day, "Date", 7; up to 31,536,000 s month-year, "Month", 6; beyond,
    the year, "Year", 5.  The span of a chart is the latest timestamp minus
    the earliest, in seconds.  Exactly 86,400 s gives "Time", 86,401 s
    "Date", and 864,000 s "Date" with 7 ticks. *)
Theorem axis_resolution_buckets :
  (forall span : Q,
     ((span <= 86400)%Q ->
      axis_of_range (Some span)
        = {| x_format := "%H:%M"; x_title := "Time"; tick_count := 5 |}) /\
     ((86400 < span)%Q -> (span <= 2592000)%Q ->
      axis_of_range (Some span)
        = {| x_format := "%b %d"; x_title := "Date"; tick_count := 7 |}) /\
     ((2592000 < span)%Q -> (span <= 31536000)%Q ->
      axis_of_range (Some span)
        = {| x_format := "%b %Y"; x_title := "Month"; tick_count := 6 |}) /\
     ((31536000 < span)%Q ->
      axis_of_range (Some span)
        = {| x_format := "%Y"; x_title := "Year"; tick_count := 5 |})) /\
  (forall (F : Type) (data : DataFrame F) (hi lo : Z),
     ts_max (timestamp data) = Some hi ->
     ts_min (timestamp data) = Some lo ->
     create_control_chart_axis data
       = axis_of_range (Some (total_seconds (hi - lo)))) /\
  (forall s1 s2 : Q,
     (s1 == s2)%Q -> axis_of_range (Some s1) = axis_of_range (Some s2)) /\
  axis_of_range (Some 86400%Q)
    = {| x_format := "%H:%M"; x_title := "Time"; tick_count := 5 |} /\
  axis_of_range (Some 86401%Q)
    = {| x_format := "%b %d"; x_title := "Date"; tick_count := 7 |} /\
  axis_of_range (Some 864000%Q)
    = {| x_format := "%b %d"; x_title := "Date"; tick_count := 7 |}.
Proof.
  split; [| split; [| split; [| repeat split]]].
  - intros span. unfold axis_of_range.
    set (day := (24 * 60 * 60)%Z).
    set (month := (30 * 24 * 60 * 60)%Z).
    set (year := (365 * 24 * 60 * 60)%Z).
    repeat split.
    + intros H1. now rewrite (range_le_true span day H1).
    + intros H1 H2.
      now rewrite (range_le_false span day H1), (range_le_true span month H2).
    + intros H2 H3.
      assert (H1 : (inject_Z day < span)%Q)
        by (eapply Qlt_trans; [| exact H2]; reflexivity).
      now rewrite (range_le_false span day H1),
        (range_le_false span month H2), (range_le_true span year H3).
    + intros H3.
      assert (H2 : (inject_Z month < span)%Q)
        by (eapply Qlt_trans; [| exact H3]; reflexivity).
      assert (H1 : (inject_Z day < span)%Q)
        by (eapply Qlt_trans; [| exact H2]; reflexivity).
      now rewrite (range_le_false span day H1),
        (range_le_false span month H2), (range_le_false span year H3).
  - intros F data hi lo Hhi Hlo.
    unfold create_control_chart_axis, time_range_of.
    now rewrite Hhi, Hlo.
  - intros s1 s2 E. unfold axis_of_range.
    now rewrite !(range_le_morphism s1 s2 _ E).
Qed.

Lemma axis_resolution_buckets_witness :
  axis_of_range (Some 3600%Q)
    = {| x_format := "%H:%M"; x_title := "Time"; tick_count := 5 |} /\
  axis_of_range (Some (172800001 # 1000)%Q)
    = {| x_format := "%b %d"; x_title := "Date"; tick_count := 7 |} /\
  axis_of_range (Some 2592001%Q)
    = {| x_format := "%b %Y"; x_title := "Month"; tick_count := 6 |} /\
  axis_of_range (Some 40000000%Q)
    = {| x_format := "%Y"; x_title := "Year"; tick_count := 5 |} /\
  create_control_chart_axis
    (Run.frame [864000000000000; 0; 432000000000000]%Z ([] : list binary64))
    = axis_of_range (Some (total_seconds (864000000000000 - 0))) /\
  axis_of_range (Some (172800 # 2)%Q) = axis_of_range (Some 86400%Q).
Proof.
  destruct axis_resolution_buckets as (Hbuckets & Hspan & Hmorph & _).
  split; [| split; [| split; [| split; [| split]]]].
  - apply (proj1 (Hbuckets 3600%Q)). vm_compute. discriminate.
  - apply (proj1 (proj2 (Hbuckets (172800001 # 1000)%Q)));
      [reflexivity | vm_compute; discriminate].
  - apply (proj1 (proj2 (proj2 (Hbuckets 2592001%Q))));
      [reflexivity | vm_compute; discriminate].
  - apply (proj2 (proj2 (proj2 (Hbuckets 40000000%Q)))). reflexivity.
  - apply Hspan; reflexivity.
  - apply Hmorph. reflexivity.
Defined.

(** The boundary in nanoseconds: two timestamps exactly one day apart give
    "Time", one nanosecond more gives "Date"; no timestamp at all gives the
    last bucket, every comparison with NaN being false. *)
Lemma axis_boundary_runs :
  x_title (create_control_chart_axis
             (Run.frame [86400000000000; 0]%Z ([] : list binary64)))
    = "Time"%string /\
  x_title (create_control_chart_axis
             (Run.frame [0; 86400000000001]%Z ([] : list binary64)))
    = "Date"%string /\
  x_title (create_control_chart_axis
             (Run.frame [] ([] : list binary64)))
    = "Year"%string.
Proof. repeat split. Qed.

(** * Further properties of the script *)

(** ** The calculators and the metric column *)

Section MetricColumn.

Context {F : Type} `{PyFloat F}.

Lemma lookup_none_iff (cols : list (string * list F)) (metric : string) :
  lookup cols metric = None <-> ~ In metric (map fst cols).
Proof.
  induction cols as [| [name col] cols IH]; cbn.
  - split; [intros _ [] | reflexivity].
  - destruct (String.eqb name metric) eqn:E.
    + apply String.eqb_eq in E. split; [discriminate |].
      intros Hn. exfalso. apply Hn. now left.
    + apply String.eqb_neq in E. rewrite IH. split.
      * intros Hn [Hh | Ht]; [now apply E | now apply Hn].
      * intros Hn Ht. apply Hn. now right.
Qed.




End MetricColumn.




(** ** The statistics of a series of the data model, whatever its size *)

Section ClosedForms.

Local Open Scope R_scope.










End ClosedForms.



(** ** Infinite capability *)


(** ** A series without variation *)

Section ConstantSeries.

Local Open Scope R_scope.






End ConstantSeries.



(** ** Shifting the measurements *)

Section Shift.

Local Open Scope R_scope.

Variable c : R.






End Shift.



(** ** Reading the capability index *)

Section ReadingCpk.

Local Open Scope R_scope.


Lemma std_nonzero (col : list xreal) :
  finite_series col ->
  (2 <= List.length (present col))%nat ->
  feqb (series_std col) (of_nat 0) = false ->
  0 < Rsample_std (present col).
Proof.
  intros Hf Hn Hnz. rewrite (series_std_fin col Hf Hn) in Hnz. cbn in Hnz.
  pose proof (Rsample_std_nonneg (present col)) as Hs.
  destruct (Req_dec_T (Rsample_std (present col)) 0) as [E | E]; [| lra].
  rewrite (Reqb_true E) in Hnz. discriminate.
Qed.




End ReadingCpk.





(** ** The script body *)



(** ** The slider of the specification limits *)

Section SliderFacts.

Local Open Scope R_scope.











End SliderFacts.



(** ** The page on its first run *)

Section FirstRun.

Local Open Scope R_scope.





End FirstRun.





(** The same on doubles: one measurement, and three equal ones. *)
Lemma constant_series_slider_binary64 :
  slider_arguments (Run.frame [] [7]%float) "tbl_speed" 7%float
    = Ok {| min_value := 7; max_value := 7; value := (7, 7) |}%float /\
  slider_arguments (Run.frame [] [5; 5; 5]%float) "tbl_speed" 5%float
    = Ok {| min_value := 5; max_value := 5; value := (5, 5) |}%float.
Proof. split; vm_compute; reflexivity. Qed.

(** ** The axis and the timestamps *)

Section AxisOfFrame.

Lemma ts_max_perm (ts1 ts2 : list Z) :
  Permutation ts1 ts2 -> ts_max ts1 = ts_max ts2.
Proof.
  intros P. destruct (ts_max ts1) as [h1 |] eqn:E1,
    (ts_max ts2) as [h2 |] eqn:E2.
  - destruct (ts_max_spec ts1 h1 E1) as [In1 Ub1].
    destruct (ts_max_spec ts2 h2 E2) as [In2 Ub2].
    f_equal. apply Z.le_antisymm.
    + apply Ub2. now apply (Permutation_in _ P).
    + apply Ub1. now apply (Permutation_in _ (Permutation_sym P)).
  - destruct ts2; [| discriminate]. apply Permutation_sym in P.
    apply Permutation_nil in P. subst. discriminate.
  - destruct ts1; [| discriminate]. apply Permutation_nil in P.
    subst. discriminate.
  - reflexivity.
Qed.

Lemma ts_min_perm (ts1 ts2 : list Z) :
  Permutation ts1 ts2 -> ts_min ts1 = ts_min ts2.
Proof.
  intros P. destruct (ts_min ts1) as [l1 |] eqn:E1,
    (ts_min ts2) as [l2 |] eqn:E2.
  - destruct (ts_min_spec ts1 l1 E1) as [In1 Lb1].
    destruct (ts_min_spec ts2 l2 E2) as [In2 Lb2].
    f_equal. apply Z.le_antisymm.
    + apply Lb1. now apply (Permutation_in _ (Permutation_sym P)).
    + apply Lb2. now apply (Permutation_in _ P).
  - destruct ts2; [| discriminate]. apply Permutation_sym in P.
    apply Permutation_nil in P. subst. discriminate.
  - destruct ts1; [| discriminate]. apply Permutation_nil in P.
    subst. discriminate.
  - reflexivity.
Qed.


End AxisOfFrame.

(** X12.  The axis does not depend on the order of the rows: two frames
    with the same timestamps in a different order get the same axis. *)
Theorem axis_ignores_row_order
  {F G : Type} (data1 : DataFrame F) (data2 : DataFrame G) :
  Permutation (timestamp data1) (timestamp data2) ->
  create_control_chart_axis data1 = create_control_chart_axis data2.
Proof.
  intros P. unfold create_control_chart_axis, time_range_of.
  now rewrite (ts_max_perm _ _ P), (ts_min_perm _ _ P).
Qed.

Lemma axis_ignores_row_order_witness :
  create_control_chart_axis
    (Run.frame [864000000000000; 0; 432000000000000]%Z ([] : list binary64))
  = create_control_chart_axis
      (Run.frame [0; 432000000000000; 864000000000000]%Z ([] : list xreal)).
Proof.
  apply axis_ignores_row_order.
  exact (Permutation_cons_append
           [0; 432000000000000]%Z 864000000000000%Z).
Defined.



(** ** The loaders *)

Section LoaderFacts.

Context {F : Type} `{PyFloat F}.

Lemma select_map_filter {A : Type} (p : A -> bool) (l : list A) :
  select (map p l) l = filter p l.
Proof.
  induction l as [| x l IH]; [reflexivity |].
  cbn. destruct (p x); now rewrite IH.
Qed.

Lemma Forall_select {A : Type} (P : A -> Prop) (mask : list bool)
  (l : list A) :
  Forall P l -> Forall P (select mask l).
Proof.
  revert l. induction mask as [| b mask IH]; intros l Hl; [constructor |].
  destruct l as [| x l]; [constructor |].
  inversion Hl; subst. cbn. destruct b; [constructor |]; auto.
Qed.

Lemma length_select {A B : Type} (mask : list bool) (l1 : list A)
  (l2 : list B) :
  List.length l1 = List.length l2 ->
  List.length (select mask l1) = List.length (select mask l2).
Proof.
  revert l1 l2. induction mask as [| b mask IH]; intros l1 l2 E;
    [reflexivity |].
  destruct l1 as [| x l1], l2 as [| y l2]; try discriminate; [reflexivity |].
  cbn in *. destruct b; cbn; auto.
Qed.

Lemma select_all {A : Type} (mask : list bool) (l : list A) :
  Forall (fun b => b = true) mask ->
  (List.length l <= List.length mask)%nat ->
  select mask l = l.
Proof.
  revert l. induction mask as [| b mask IH]; intros l Hm Hl.
  - destruct l; [reflexivity | cbn in Hl; lia].
  - destruct l as [| x l]; [reflexivity |].
    inversion Hm; subst. cbn in *. f_equal. apply IH; [assumption | lia].
Qed.

Lemma lookup_take_rows (mask : list bool) (cols : list (string * list F))
  (name : string) :
  lookup (map (fun nc => (fst nc, select mask (snd nc))) cols) name
  = option_map (select mask) (lookup cols name).
Proof.
  induction cols as [| [n c] cols IH]; [reflexivity |].
  cbn. destruct (String.eqb n name); [reflexivity | apply IH].
Qed.

Lemma names_take_rows (mask : list bool) (data : DataFrame F) :
  map fst (columns (take_rows mask data)) = map fst (columns data).
Proof.
  unfold take_rows. cbn. rewrite map_map. reflexivity.
Qed.

Lemma names_lower_columns (data : DataFrame F) :
  map fst (columns (lower_columns data))
  = map (fun nc => lower (fst nc)) (columns data).
Proof. unfold lower_columns. cbn. rewrite map_map. reflexivity. Qed.

Lemma getitem_take_rows (mask : list bool) (data : DataFrame F)
  (name : string) (col : list F) :
  getitem (take_rows mask data) name = Ok col ->
  exists col0, getitem data name = Ok col0 /\ col = select mask col0.
Proof.
  unfold getitem, take_rows. cbn [columns]. rewrite lookup_take_rows.
  destruct (lookup (columns data) name) as [col0 |]; cbn; [| discriminate].
  intros [= <-]. now exists col0.
Qed.

Lemma getitem_missing (data : DataFrame F) (name : string) :
  ~ In name (map fst (columns data)) ->
  getitem data name = Raise (KeyError name).
Proof.
  intros Hn. unfold getitem.
  now rewrite (proj2 (lookup_none_iff (columns data) name) Hn).
Qed.

(** What [keep_equal] returns: the rows of the frame whose cell equals the
    wanted value. *)
Lemma keep_equal_ok (name : string) (wanted : F) (data out : DataFrame F) :
  keep_equal name wanted data = Ok out ->
  exists col, getitem data name = Ok col /\
              out = take_rows (map (fun x => feqb x wanted) col) data.
Proof.
  unfold keep_equal. destruct (getitem data name) as [col | e]; cbn [bind];
    [| discriminate].
  intros [= <-]. now exists col.
Qed.

Lemma keep_equal_missing (name : string) (wanted : F) (data : DataFrame F) :
  ~ In name (map fst (columns data)) ->
  keep_equal name wanted data = Raise (KeyError name).
Proof.
  intros Hn. unfold keep_equal. now rewrite (getitem_missing data name Hn).
Qed.

Lemma keep_equal_names (name : string) (wanted : F)
  (data out : DataFrame F) :
  keep_equal name wanted data = Ok out ->
  map fst (columns out) = map fst (columns data).
Proof.
  intros Hk. destruct (keep_equal_ok name wanted data out Hk)
    as (col & _ & ->). apply names_take_rows.
Qed.

Lemma well_formed_take_rows (mask : list bool) (data : DataFrame F) :
  well_formed data -> well_formed (take_rows mask data).
Proof.
  unfold well_formed, take_rows. cbn [columns timestamp].
  intros Hw. apply Forall_map. eapply Forall_impl; [| exact Hw].
  intros [n c] E. cbn in *. now apply length_select.
Qed.

Lemma well_formed_lower_columns (data : DataFrame F) :
  well_formed data -> well_formed (lower_columns data).
Proof.
  unfold well_formed, lower_columns. cbn [columns timestamp].
  intros Hw. apply Forall_map. eapply Forall_impl; [| exact Hw].
  intros [n c] E. exact E.
Qed.

Lemma well_formed_empty_frame : well_formed (@empty_frame F).
Proof. constructor. Qed.

(** A property of the date-filtered frame that [data[mask]] preserves holds
    of the frame that the [try] body returns. *)
Lemma filter_manufacturing_data_keeps
  (P : DataFrame F -> Prop) (data out : DataFrame F)
  (start_date end_date : Z) (campaign batch : option F) :
  (forall mask d, P d -> P (take_rows mask d)) ->
  P (take_rows (map (in_range start_date end_date) (timestamp data))
       (lower_columns data)) ->
  filter_manufacturing_data data start_date end_date campaign batch = Ok out ->
  P out.
Proof.
  intros Hstep Hdate. unfold filter_manufacturing_data.
  cbn [timestamp lower_columns].
  set (d1 := take_rows _ _) in *.
  assert (Hkeep : forall name v d d', P d -> keep_equal name v d = Ok d' ->
                                      P d').
  { intros name v d d' Hd Hk.
    destruct (keep_equal_ok name v d d' Hk) as (col & _ & ->).
    now apply Hstep. }
  destruct campaign as [c |].
  - destruct (keep_equal "campaign" c d1) as [d2 | e] eqn:E2; cbn [bind];
      [| discriminate].
    assert (H2 : P d2) by (eapply Hkeep; eassumption).
    destruct batch as [b |].
    + intros E3. eapply Hkeep; eassumption.
    + now intros [= <-].
  - cbn [bind]. destruct batch as [b |].
    + intros E3. eapply Hkeep; eassumption.
    + now intros [= <-].
Qed.

Lemma cells_equal_take_rows (name : string) (v : F) (mask : list bool)
  (data : DataFrame F) :
  (forall col, getitem data name = Ok col ->
               Forall (fun x => feqb x v = true) col) ->
  forall col, getitem (take_rows mask data) name = Ok col ->
              Forall (fun x => feqb x v = true) col.
Proof.
  intros Hd col Hcol.
  destruct (getitem_take_rows mask data name col Hcol) as (col0 & H0 & ->).
  apply Forall_select. now apply Hd.
Qed.

Lemma cells_equal_keep_equal (name : string) (v : F)
  (data out : DataFrame F) :
  keep_equal name v data = Ok out ->
  forall col, getitem out name = Ok col ->
              Forall (fun x => feqb x v = true) col.
Proof.
  intros Hk col Hcol.
  destruct (keep_equal_ok name v data out Hk) as (col0 & H0 & ->).
  destruct (getitem_take_rows _ data name col Hcol) as (col1 & H1 & ->).
  rewrite H0 in H1. injection H1 as <-.
  rewrite (select_map_filter (fun x => feqb x v) col0).
  apply Forall_forall. intros x Hx. now apply filter_In in Hx.
Qed.

End LoaderFacts.

(** X14.  [get_manufacturing_data] raises nothing: when the file is not
    found, or when a campaign or batch is wanted and the file has no column
    of that name (in any letter case), it returns the empty frame, for which
    the page shows the "no data" box. *)
Theorem loader_errors_end_in_no_data
  {F : Type} `{PyFloat F} (start_date end_date : Z)
  (campaign batch : option F) :
  get_manufacturing_data None start_date end_date campaign batch
    = empty_frame /\
  (forall (data : DataFrame F) (v : F),
     ~ In "campaign"%string (map (fun nc => lower (fst nc)) (columns data)) ->
     get_manufacturing_data (Some data) start_date end_date (Some v) batch
       = empty_frame) /\
  (forall (data : DataFrame F) (v : F),
     ~ In "batch"%string (map (fun nc => lower (fst nc)) (columns data)) ->
     get_manufacturing_data (Some data) start_date end_date campaign (Some v)
       = empty_frame) /\
  (forall (metric : string) (lsl usl : F),
     script_body empty_frame metric lsl usl = Ok (ErrorBox no_data_message)).
Proof.
  split; [reflexivity |]. split; [| split].
  - intros data v Hn. unfold get_manufacturing_data, filter_manufacturing_data.
    rewrite keep_equal_missing; [reflexivity |].
    now rewrite names_take_rows, names_lower_columns.
  - intros data v Hn. unfold get_manufacturing_data, filter_manufacturing_data.
    cbn [timestamp lower_columns].
    set (d1 := take_rows _ _).
    assert (Hn1 : ~ In "batch"%string (map fst (columns d1)))
      by (unfold d1; now rewrite names_take_rows, names_lower_columns).
    destruct campaign as [c |].
    + destruct (keep_equal "campaign" c d1) as [d2 | e] eqn:E2; cbn [bind];
        [| reflexivity].
      rewrite keep_equal_missing; [reflexivity |].
      now rewrite (keep_equal_names _ _ _ _ E2).
    + cbn [bind]. now rewrite keep_equal_missing.
  - reflexivity.
Qed.

Lemma loader_errors_end_in_no_data_witness :
  get_manufacturing_data
    (Some (Run.frame [10; 20]%Z [95; 105]%float)) 0 100 (Some 1%float) None
    = empty_frame /\
  get_manufacturing_data
    (Some (Run.frame [10; 20]%Z [95; 105]%float)) 0 100 None (Some 1%float)
    = empty_frame.
Proof.
  split.
  - apply (proj1 (proj2 (@loader_errors_end_in_no_data binary64 _ 0 100
                           (Some 1%float) None))).
    cbn. intros [E | []]. discriminate.
  - apply (proj1 (proj2 (proj2 (@loader_errors_end_in_no_data binary64 _
                                  0 100 None (Some 1%float))))).
    cbn. intros [E | []]. discriminate.
Defined.

(** X15.  Every row that [get_manufacturing_data] returns has its timestamp
    between the start and the end of the date range, bounds included. *)
Theorem loaded_rows_are_in_range
  {F : Type} `{PyFloat F} (file : option (DataFrame F))
  (start_date end_date : Z) (campaign batch : option F) :
  Forall (fun t => (start_date <= t <= end_date)%Z)
    (timestamp
       (get_manufacturing_data file start_date end_date campaign batch)).
Proof.
  unfold get_manufacturing_data. destruct file as [data |]; [| constructor].
  destruct (filter_manufacturing_data data start_date end_date campaign batch)
    as [out | e] eqn:E; [| constructor].
  apply (filter_manufacturing_data_keeps
           (fun d => Forall (fun t => (start_date <= t <= end_date)%Z)
                       (timestamp d))
           data out start_date end_date campaign batch); trivial.
  - intros mask d Hd. cbn [take_rows timestamp]. now apply Forall_select.
  - cbn [take_rows timestamp lower_columns].
    rewrite select_map_filter. apply Forall_forall. intros t Ht.
    apply filter_In in Ht. destruct Ht as [_ Ht]. unfold in_range in Ht.
    apply andb_prop in Ht. destruct Ht as [H1 H2].
    apply Z.leb_le in H1, H2. lia.
Qed.

(** X16.  When a campaign is wanted, every cell of the [campaign] column of
    the returned frame equals it; and likewise for a wanted batch. *)
Theorem loaded_rows_match_filters
  {F : Type} `{PyFloat F} (data : DataFrame F) (start_date end_date : Z)
  (campaign batch : option F) :
  (forall (v : F) (col : list F),
     campaign = Some v ->
     getitem (get_manufacturing_data (Some data) start_date end_date
                campaign batch) "campaign" = Ok col ->
     Forall (fun x => feqb x v = true) col) /\
  (forall (v : F) (col : list F),
     batch = Some v ->
     getitem (get_manufacturing_data (Some data) start_date end_date
                campaign batch) "batch" = Ok col ->
     Forall (fun x => feqb x v = true) col).
Proof.
  unfold get_manufacturing_data, filter_manufacturing_data.
  cbn [timestamp lower_columns].
  set (d1 := take_rows _ _).
  split.
  - intros v col -> . 
    destruct (keep_equal "campaign" v d1) as [d2 | e] eqn:E2; cbn [bind];
      [| discriminate].
    pose proof (cells_equal_keep_equal _ _ _ _ E2) as H2.
    destruct batch as [b |].
    + destruct (keep_equal "batch" b d2) as [d3 | e] eqn:E3;
        [| discriminate].
      destruct (keep_equal_ok _ _ _ _ E3) as (colb & _ & ->).
      now apply cells_equal_take_rows.
    + apply H2.
  - intros v col ->.
    destruct campaign as [c |].
    + destruct (keep_equal "campaign" c d1) as [d2 | e] eqn:E2; cbn [bind];
        [| discriminate].
      destruct (keep_equal "batch" v d2) as [d3 | e] eqn:E3;
        [| discriminate].
      now apply (cells_equal_keep_equal _ _ _ _ E3).
    + cbn [bind].
      destruct (keep_equal "batch" v d1) as [d3 | e] eqn:E3;
        [| discriminate].
      now apply (cells_equal_keep_equal _ _ _ _ E3).
Qed.

Lemma loaded_rows_match_filters_witness :
  Forall (fun x => feqb x 1%float = true) [1; 1]%float.
Proof.
  exact (proj1 (@loaded_rows_match_filters binary64 _
                  {| timestamp := [10; 20; 30]%Z;
                     columns := [("Campaign"%string, [1; 2; 1]%float);
                                 ("tbl_speed"%string,
                                  [95; 100; 105]%float)] |}
                  0 100 (Some 1%float) None) 1%float [1; 1]%float
               eq_refl eq_refl).
Defined.

(** X17.  [get_manufacturing_data] keeps frames well formed: when every
    column of the file has one cell per row, so does every column of the
    returned frame. *)
Theorem loader_keeps_frames_well_formed
  {F : Type} `{PyFloat F} (file : option (DataFrame F))
  (start_date end_date : Z) (campaign batch : option F) :
  (forall data, file = Some data -> well_formed data) ->
  well_formed
    (get_manufacturing_data file start_date end_date campaign batch).
Proof.
  intros Hw. unfold get_manufacturing_data.
  destruct file as [data |]; [| apply well_formed_empty_frame].
  destruct (filter_manufacturing_data data start_date end_date campaign batch)
    as [out | e] eqn:E; [| apply well_formed_empty_frame].
  apply (filter_manufacturing_data_keeps well_formed
           data out start_date end_date campaign batch); trivial.
  - intros mask d. apply well_formed_take_rows.
  - apply well_formed_take_rows, well_formed_lower_columns.
    now apply Hw.
Qed.

Lemma loader_keeps_frames_well_formed_witness :
  well_formed
    (get_manufacturing_data
       (Some {| timestamp := [10; 20; 30]%Z;
                columns := [("Campaign"%string, [1; 2; 1]%float);
                            ("tbl_speed"%string, [95; 100; 105]%float)] |})
       15 100 (Some 1%float) None).
Proof.
  apply loader_keeps_frames_well_formed.
  intros data [= <-]. repeat constructor.
Defined.

(** X18.  Without a campaign and a batch, and with every timestamp of a
    well-formed file in the date range, [get_manufacturing_data] returns the
    file as it is but for the column names, which are in lower case. *)
Theorem loader_without_filter_keeps_all_rows
  {F : Type} `{PyFloat F} (data : DataFrame F) (start_date end_date : Z) :
  well_formed data ->
  Forall (fun t => (start_date <= t <= end_date)%Z) (timestamp data) ->
  get_manufacturing_data (Some data) start_date end_date None None
    = lower_columns data.
Proof.
  intros Hw Hin. unfold get_manufacturing_data, filter_manufacturing_data.
  cbn [bind lower_columns timestamp].
  set (mask := map (in_range start_date end_date) (timestamp data)).
  assert (Hmask : Forall (fun b => b = true) mask).
  { unfold mask. apply Forall_map. eapply Forall_impl; [| exact Hin].
    intros t Ht. cbv beta in Ht. destruct Ht as [Ht1 Ht2].
    unfold in_range. apply andb_true_intro.
    split; apply Z.leb_le; assumption. }
  assert (Hlen : List.length mask = List.length (timestamp data))
    by (unfold mask; apply length_map).
  unfold take_rows, lower_columns. cbn [timestamp columns]. f_equal.
  - apply select_all; [assumption | lia].
  - rewrite map_map. apply map_ext_in. intros [n c] Hnc. cbn [fst snd].
    f_equal. apply select_all; [assumption |].
    unfold well_formed in Hw. rewrite Forall_forall in Hw.
    specialize (Hw (n, c) Hnc). cbn in Hw. lia.
Qed.

Lemma loader_without_filter_keeps_all_rows_witness :
  get_manufacturing_data
    (Some {| timestamp := [10; 20; 30]%Z;
             columns := [("Campaign"%string, [1; 2; 1]%float);
                         ("TBL_Speed"%string, [95; 100; 105]%float)] |})
    0 100 None None
  = {| timestamp := [10; 20; 30]%Z;
       columns := [("campaign"%string, [1; 2; 1]%float);
                   ("tbl_speed"%string, [95; 100; 105]%float)] |}.
Proof.
  apply (@loader_without_filter_keeps_all_rows binary64 _
           {| timestamp := [10; 20; 30]%Z;
              columns := [("Campaign"%string, [1; 2; 1]%float);
                          ("TBL_Speed"%string, [95; 100; 105]%float)] |}
           0 100).
  - repeat constructor.
  - repeat (apply Forall_cons; [lia |]). apply Forall_nil.
Defined.

(** ** The values offered by the filters *)

Section UniqueValues.

Local Open Scope R_scope.

Lemma lookup_in_nodup {F : Type} (cols : list (string * list F))
  (name : string) (col : list F) :
  NoDup (map fst cols) -> In (name, col) cols ->
  lookup cols name = Some col.
Proof.
  induction cols as [| [n c] cols IH]; intros Hnd Hin; [contradiction |].
  cbn in *. inversion Hnd as [| ? ? Hnotin Hnd']; subst.
  destruct Hin as [[= -> ->] | Hin].
  - now rewrite String.eqb_refl.
  - destruct (String.eqb n name) eqn:E; [| now apply IH].
    apply String.eqb_eq in E. subst n. exfalso. apply Hnotin.
    change name with (fst (name, col)). now apply in_map.
Qed.

Lemma seen_iff (r : R) (ss : list R) :
  existsb (same_value (XFin r)) (map XFin ss) = true <-> In r ss.
Proof.
  rewrite existsb_exists. split.
  - intros (x & Hx & Hsame). apply in_map_iff in Hx.
    destruct Hx as (s & <- & Hs). unfold same_value in Hsame. cbn in Hsame.
    rewrite orb_false_r in Hsame. apply Reqb_iff in Hsame. now subst.
  - intros Hin. exists (XFin r). split; [now apply in_map |].
    unfold same_value. cbn. now rewrite (Reqb_true (eq_refl r)).
Qed.

Lemma unique_from (rs ss : list R) :
  NoDup ss ->
  exists us : list R,
    fold_left
      (fun seen x => if existsb (same_value x) seen then seen
                     else seen ++ [x])
      (map XFin rs) (map XFin ss)
    = map XFin us /\
    NoDup us /\ forall r, In r us <-> In r ss \/ In r rs.
Proof.
  revert ss. induction rs as [| a rs IH]; intros ss Hnd.
  - exists ss. cbn. repeat split; trivial; tauto.
  - cbn [map fold_left].
    destruct (existsb (same_value (XFin a)) (map XFin ss)) eqn:E.
    + apply seen_iff in E. destruct (IH ss Hnd) as (us & Hus & Hnd' & Hin).
      exists us. repeat split; trivial.
      * intros Hr. apply Hin in Hr. cbn. tauto.
      * intros [Hr | [<- | Hr]]; apply Hin; tauto.
    + assert (Hnotin : ~ In a ss).
      { intros Hin. apply seen_iff in Hin. congruence. }
      assert (Hnd2 : NoDup (ss ++ [a])).
      { apply NoDup_app; [assumption | repeat constructor; intros [] |].
        intros x Hx [<- | []]. contradiction. }
      replace (map XFin ss ++ [XFin a]) with (map XFin (ss ++ [a]))
        by (rewrite map_app; reflexivity).
      destruct (IH (ss ++ [a]) Hnd2) as (us & Hus & Hnd' & Hin).
      exists us. repeat split; trivial.
      * intros Hr. apply Hin in Hr. rewrite in_app_iff in Hr. cbn in *. tauto.
      * intros Hr. apply Hin. rewrite in_app_iff. cbn in *. tauto.
Qed.

(** [Series.unique()] of a column of numbers: the same numbers, each once. *)
Lemma unique_fin (rs : list R) :
  exists us : list R,
    unique (map XFin rs) = map XFin us /\
    NoDup us /\ forall r, In r us <-> In r rs.
Proof.
  destruct (unique_from rs [] (NoDup_nil R)) as (us & Hus & Hnd & Hin).
  exists us. repeat split; trivial.
  - intros Hr. apply Hin in Hr. destruct Hr as [[] | Hr]. exact Hr.
  - intros Hr. apply Hin. now right.
Qed.

Lemma insert_sorted_fin (x : R) (l : list R) :
  StronglySorted Rle l ->
  exists l' : list R,
    insert_sorted (XFin x) (map XFin l) = map XFin l' /\
    StronglySorted Rle l' /\ Permutation (x :: l) l'.
Proof.
  induction l as [| y l IH]; intros Hs.
  - exists [x]. repeat split; [repeat constructor | apply Permutation_refl].
  - cbn [map insert_sorted]. cbn [fltb xreal_float xltb]. unfold Rltb.
    inversion Hs as [| ? ? Hs' Hall]; subst.
    destruct (Rlt_dec x y) as [Hlt | Hge].
    + exists (x :: y :: l). repeat split; [| apply Permutation_refl].
      constructor; [assumption |]. constructor; [lra |].
      eapply Forall_impl; [| exact Hall]. intros z Hz. cbv beta in Hz. lra.
    + destruct (IH Hs') as (l' & Hl' & Hsorted & Hperm).
      exists (y :: l'). rewrite Hl'. repeat split.
      * constructor; [assumption |].
        eapply Permutation_Forall; [exact Hperm |].
        constructor; [lra | assumption].
      * transitivity (y :: x :: l); [apply perm_swap |].
        now apply perm_skip.
Qed.

Lemma sorted_from (l acc : list R) :
  StronglySorted Rle acc ->
  exists out : list R,
    fold_left (fun a x => insert_sorted x a) (map XFin l) (map XFin acc)
    = map XFin out /\
    StronglySorted Rle out /\ Permutation (acc ++ l) out.
Proof.
  revert acc. induction l as [| x l IH]; intros acc Hs.
  - exists acc. rewrite app_nil_r. repeat split; trivial.
  - cbn [map fold_left].
    destruct (insert_sorted_fin x acc Hs) as (acc' & -> & Hs' & Hperm).
    destruct (IH acc' Hs') as (out & Hout & Hsorted & Hperm').
    exists out. repeat split; trivial.
    transitivity (acc' ++ l); [| assumption].
    transitivity ((x :: acc) ++ l).
    + symmetry. apply Permutation_middle.
    + now apply Permutation_app_tail.
Qed.

(** [sorted] of a list of numbers: the same numbers in ascending order. *)
Lemma sorted_fin (l : list R) :
  exists out : list R,
    sorted (map XFin l) = map XFin out /\
    StronglySorted Rle out /\ Permutation l out.
Proof.
  destruct (sorted_from l [] (SSorted_nil Rle)) as (out & Hout & Hs & Hp).
  now exists out.
Qed.

Lemma strictly_sorted (l : list R) :
  StronglySorted Rle l -> NoDup l -> StronglySorted Rlt l.
Proof.
  induction 1 as [| x l Hs IH Hall]; intros Hnd; [constructor |].
  inversion Hnd as [| ? ? Hnotin Hnd']; subst.
  constructor; [now apply IH |].
  rewrite Forall_forall in *. intros y Hy.
  destruct (Hall y Hy) as [Hlt | Heq]; [assumption |].
  subst. contradiction.
Qed.

End UniqueValues.

(** X19.  [get_unique_values] raises nothing: when the file is not found, or
    has no column of that name in any letter case, the list of options is
    empty. *)
Theorem unique_values_of_missing_column
  {F : Type} `{PyFloat F} (column : string) :
  get_unique_values (@None (DataFrame F)) column = [] /\
  forall data : DataFrame F,
    ~ In (lower column) (map (fun nc => lower (fst nc)) (columns data)) ->
    get_unique_values (Some data) column = [].
Proof.
  split; [reflexivity |]. intros data Hn. unfold get_unique_values.
  rewrite <- names_lower_columns in Hn.
  now rewrite (proj2 (lookup_none_iff _ _) Hn).
Qed.

Lemma unique_values_of_missing_column_witness :
  get_unique_values (Some (Run.frame [10; 20]%Z [95; 105]%float)) "Campaign"
  = [].
Proof.
  apply (proj2 (@unique_values_of_missing_column binary64 _ "Campaign")).
  cbn. intros [E | []]. discriminate.
Defined.

(** X20.  For a column of numbers whose name matches in lower case,
    [get_unique_values] returns exactly the numbers of the column, each once,
    in strictly ascending order. *)
Theorem unique_values_sorted_without_repeats
  (data : DataFrame xreal) (column name : string) (rs : list R) :
  NoDup (map (fun nc => lower (fst nc)) (columns data)) ->
  In (name, map XFin rs) (columns data) ->
  lower name = lower column ->
  exists vs : list R,
    get_unique_values (Some data) column = map XFin vs /\
    StronglySorted Rlt vs /\
    forall r : R, In r vs <-> In r rs.
Proof.
  intros Hnd Hin Hname. unfold get_unique_values.
  assert (Hlook : lookup (columns (lower_columns data)) (lower column)
                  = Some (map XFin rs)).
  { apply lookup_in_nodup; [now rewrite names_lower_columns |].
    unfold lower_columns. cbn [columns]. rewrite <- Hname.
    change (lower name, map XFin rs)
      with ((fun nc : string * list xreal => (lower (fst nc), snd nc))
              (name, map XFin rs)).
    now apply in_map. }
  rewrite Hlook.
  destruct (unique_fin rs) as (us & -> & Hnodup & Hsame).
  destruct (sorted_fin us) as (vs & -> & Hsorted & Hperm).
  exists vs. repeat split.
  - apply strictly_sorted; [assumption |].
    now apply (Permutation_NoDup Hperm).
  - intros Hr. apply Hsame. now apply (Permutation_in _ (Permutation_sym Hperm)).
  - intros Hr. apply (Permutation_in _ Hperm). now apply Hsame.
Qed.

Lemma unique_values_sorted_without_repeats_witness :
  exists vs : list R,
    get_unique_values
      (Some {| timestamp := [10; 20; 30]%Z;
               columns := [("Campaign"%string, map XFin [2; 1; 2]%R);
                           ("tbl_speed"%string, map XFin [95; 100; 105]%R)] |})
      "campaign"
    = map XFin vs /\
    StronglySorted Rlt vs /\
    forall r : R, In r vs <-> In r [2; 1; 2]%R.
Proof.
  apply (unique_values_sorted_without_repeats
           {| timestamp := [10; 20; 30]%Z;
              columns := [("Campaign"%string, map XFin [2; 1; 2]%R);
                          ("tbl_speed"%string, map XFin [95; 100; 105]%R)] |}
           "campaign" "Campaign" [2; 1; 2]%R).
  - cbn. apply NoDup_cons; [intros [E | []]; discriminate |].
    apply NoDup_cons; [intros [] |]. apply NoDup_nil.
  - now left.
  - reflexivity.
Defined.

(** The same on doubles. *)
Lemma unique_values_binary64 :
  get_unique_values
    (Some {| timestamp := [10; 20; 30; 40; 50]%Z;
             columns := [("Batch"%string, [3; 1; 3; 2; 1]%float)] |})
    "batch"
  = [1; 2; 3]%float.
Proof. reflexivity. Qed.

(** ** The titles *)

Section Titles.

Ltac by_cases c := destruct c as [[] [] [] [] [] [] [] []]; vm_compute; trivial.

Lemma upper_char_idem (c : ascii) : upper_char (upper_char c) = upper_char c.
Proof. by_cases c. Qed.

Lemma lower_char_idem (c : ascii) : lower_char (lower_char c) = lower_char c.
Proof. by_cases c. Qed.

Lemma upper_lower_char (c : ascii) : upper_char (lower_char c) = upper_char c.
Proof. by_cases c. Qed.

Lemma upper_char_not_lower (c : ascii) : is_lower (upper_char c) = false.
Proof. by_cases c. Qed.

Lemma lower_char_not_upper (c : ascii) : is_upper (lower_char c) = false.
Proof. by_cases c. Qed.

Lemma underscore_lower_char (c : ascii) :
  Ascii.eqb (lower_char c) "_" = Ascii.eqb c "_".
Proof. by_cases c. Qed.

Lemma underscore_upper_char (c : ascii) :
  Ascii.eqb (upper_char c) "_" = Ascii.eqb c "_".
Proof. by_cases c. Qed.

Lemma replaced_not_underscore (c : ascii) :
  Ascii.eqb (if Ascii.eqb c "_" then " "%char else c) "_" = false.
Proof. by_cases c. Qed.

Lemma lower_idem (s : string) : lower (lower s) = lower s.
Proof.
  induction s as [| c s IH]; [reflexivity |].
  cbn. now rewrite lower_char_idem, IH.
Qed.

Lemma length_lower (s : string) : String.length (lower s) = String.length s.
Proof. induction s as [| c s IH]; [reflexivity | cbn; now rewrite IH]. Qed.

Lemma length_replace (old new : ascii) (s : string) :
  String.length (replace old new s) = String.length s.
Proof. induction s as [| c s IH]; [reflexivity | cbn; now rewrite IH]. Qed.

Lemma replace_lower (s : string) :
  replace "_" " " (lower s) = lower (replace "_" " " s).
Proof.
  induction s as [| c s IH]; [reflexivity |].
  cbn [lower replace]. rewrite IH, underscore_lower_char.
  destruct (Ascii.eqb c "_"); reflexivity.
Qed.

Lemma replace_without_underscore (s : string) :
  Forall (fun c => Ascii.eqb c "_" = false) (list_ascii_of_string s) ->
  replace "_" " " s = s.
Proof.
  induction s as [| c s IH]; [reflexivity |].
  cbn. intros Hall. inversion Hall as [| ? ? Hc Hs]; subst.
  now rewrite Hc, IH.
Qed.

Lemma replace_has_no_underscore (s : string) :
  Forall (fun c => Ascii.eqb c "_" = false)
    (list_ascii_of_string (replace "_" " " s)).
Proof.
  induction s as [| c s IH]; [constructor |].
  cbn. constructor; [apply replaced_not_underscore | exact IH].
Qed.

Lemma lower_keeps_no_underscore (s : string) :
  Forall (fun c => Ascii.eqb c "_" = false) (list_ascii_of_string s) ->
  Forall (fun c => Ascii.eqb c "_" = false) (list_ascii_of_string (lower s)).
Proof.
  induction s as [| c s IH]; [constructor |].
  cbn. intros Hall. inversion Hall as [| ? ? Hc Hs]; subst.
  constructor; [now rewrite underscore_lower_char | now apply IH].
Qed.

Lemma capitalize_keeps_no_underscore (s : string) :
  Forall (fun c => Ascii.eqb c "_" = false) (list_ascii_of_string s) ->
  Forall (fun c => Ascii.eqb c "_" = false)
    (list_ascii_of_string (capitalize s)).
Proof.
  destruct s as [| c s]; [constructor |].
  cbn. intros Hall. inversion Hall as [| ? ? Hc Hs]; subst.
  constructor; [now rewrite underscore_upper_char |].
  now apply lower_keeps_no_underscore.
Qed.

Lemma capitalize_idem (s : string) : capitalize (capitalize s) = capitalize s.
Proof.
  destruct s as [| c s]; [reflexivity |].
  cbn. now rewrite upper_char_idem, lower_idem.
Qed.

Lemma capitalize_lower (s : string) : capitalize (lower s) = capitalize s.
Proof.
  destruct s as [| c s]; [reflexivity |].
  cbn. now rewrite upper_lower_char, lower_idem.
Qed.

Lemma lower_has_no_upper (s : string) :
  Forall (fun c => is_upper c = false) (list_ascii_of_string (lower s)).
Proof.
  induction s as [| c s IH]; [constructor |].
  cbn. constructor; [apply lower_char_not_upper | exact IH].
Qed.

End Titles.

(** X21.  The title made from a metric name has the length of the name,
    holds no underscore, starts with no lower-case letter and goes on with no
    upper-case letter; making a title of a title changes nothing, and the
    letter case of the name does not matter. *)
Theorem metric_title_shape (metric : string) :
  String.length (metric_title metric) = String.length metric /\
  Forall (fun c => Ascii.eqb c "_" = false)
    (list_ascii_of_string (metric_title metric)) /\
  (forall (c : ascii) (rest : string),
     metric_title metric = String c rest ->
     is_lower c = false /\
     Forall (fun d => is_upper d = false) (list_ascii_of_string rest)) /\
  metric_title (metric_title metric) = metric_title metric /\
  metric_title (lower metric) = metric_title metric.
Proof.
  unfold metric_title. repeat split.
  - destruct metric as [| c s]; [reflexivity |].
    cbn. now rewrite length_lower, length_replace.
  - apply capitalize_keeps_no_underscore, replace_has_no_underscore.
  - destruct (replace "_" " " metric) as [| d s]; [discriminate |].
    cbn in H. injection H as <- <-. apply upper_char_not_lower.
  - destruct (replace "_" " " metric) as [| d s]; [discriminate |].
    cbn in H. injection H as <- <-. apply lower_has_no_upper.
  - rewrite replace_without_underscore
      by apply capitalize_keeps_no_underscore, replace_has_no_underscore.
    apply capitalize_idem.
  - rewrite replace_lower. apply capitalize_lower.
Qed.

Lemma metric_title_shape_witness :
  metric_title "tbl_speed" = "Tbl speed"%string /\
  is_lower "T" = false /\
  Forall (fun d => is_upper d = false) (list_ascii_of_string "bl speed") /\
  metric_title "SREL" = metric_title "srel" /\
  chart_title "main_comp" = "Control Chart for Main comp"%string.
Proof.
  destruct (metric_title_shape "tbl_speed") as (_ & _ & Hshape & _ & _).
  destruct (metric_title_shape "SREL") as (_ & _ & _ & _ & Hcase).
  destruct (Hshape "T"%char "bl speed"%string eq_refl) as [Hfirst Hrest].
  split; [reflexivity |]. split; [exact Hfirst |]. split; [exact Hrest |].
  split; [symmetry; exact Hcase | reflexivity].
Defined.

(** ** A missing specification limit *)

(** X22.  [min(cpu, cpl)] is not symmetric in a NaN: for a series with
    variation, a NaN upper limit makes [cpk] and [ppk] NaN, while a NaN lower
    limit is passed over and [cpk] is the upper quotient
    [(usl - mean) / (3 std)] alone. *)
Theorem nan_limit_is_not_symmetric
  (data : DataFrame xreal) (metric : string) (col : list xreal)
  (lsl usl : R) :
  getitem data metric = Ok col ->
  finite_series col ->
  (2 <= List.length (dropna col))%nat ->
  feqb (series_std col) (of_nat 0) = false ->
  calculate_process_capability data metric (XFin lsl) nan = Ok (nan, nan) /\
  calculate_process_capability data metric nan (XFin usl)
    = Ok (XFin ((usl - Rmean (present col))
                / (3 * Rsample_std (present col))),
          XFin ((usl - Rmean (present col))
                / (3 * Rsample_std (present col))))%R.
Proof.
  intros Hcol Hf Hn Hnz. rewrite (dropna_length col Hf) in Hn.
  pose proof (std_nonzero col Hf Hn Hnz) as Hs.
  assert (Hs0 : Rsample_std (present col) <> 0%R) by lra.
  assert (Hne : present col <> [])
    by (destruct (present col); [cbn in Hn; lia | congruence]).
  rewrite !(capability_unfold data metric col _ _ Hcol).
  rewrite (series_mean_fin col Hf Hne), (series_std_fin col Hf Hn).
  rewrite (capability_cpu_fin _ _ _ Hs0), (capability_cpl_fin _ _ _ Hs0).
  split.
  - unfold capability_cpu. cbn. rewrite (Reqb_false Hs0). reflexivity.
  - unfold capability_cpl. cbn. rewrite (Reqb_false Hs0). reflexivity.
Qed.

Lemma nan_limit_is_not_symmetric_witness :
  Run.capability_of [XFin 95; XFin 100; XFin 105] (XFin 85) XNaN
    = Ok (XNaN, XNaN) /\
  Run.capability_of [XFin 95; XFin 100; XFin 105] XNaN (XFin 115)
    = Ok (XFin ((115 - Rmean [95; 100; 105])
                / (3 * Rsample_std [95; 100; 105])),
          XFin ((115 - Rmean [95; 100; 105])
                / (3 * Rsample_std [95; 100; 105])))%R.
Proof.
  assert (Hf : finite_series [XFin 95; XFin 100; XFin 105])
    by (repeat constructor).
  assert (Hn : (2 <= List.length (dropna [XFin 95; XFin 100; XFin 105]))%nat)
    by (cbn; lia).
  assert (Hnz : feqb (series_std [XFin 95; XFin 100; XFin 105]) (of_nat 0)
                = false).
  { rewrite scenario_2_std. cbn. apply Reqb_false. lra. }
  exact (nan_limit_is_not_symmetric
           (Run.frame [] [XFin 95; XFin 100; XFin 105]) "tbl_speed"
           [XFin 95; XFin 100; XFin 105] 85 115 eq_refl Hf Hn Hnz).
Defined.

(** The same on doubles. *)
Lemma nan_limit_binary64 :
  Run.capability_of [95; 100; 105]%float 85%float PrimFloat.nan
    = Ok (PrimFloat.nan, PrimFloat.nan) /\
  Run.capability_of [95; 100; 105]%float PrimFloat.nan 115%float
    = Ok (1, 1)%float.
Proof. split; vm_compute; reflexivity. Qed.
